(** * A 16-bit CPU emulator (cpu16.cpp): shallow embedding and properties

    The emulator keeps its whole state in globals: two memory arrays
    [ROM] and [RAM], a five-slot register array [reg], a [halt] flag, and
    the standard output stream.  Every word is a [uint16_t]; it is
    modelled as a [Z] with the conversion back to 16 bits written out as
    [wrap16].  Arrays are lists read with [!!] and updated with [<[_:=_]>];
    an index past the end of an array is undefined behaviour in C++ and
    is reported as such instead of being given a meaning. *)

From Stdlib Require Import ZArith String Ascii Lia.
From stdpp Require Import base tactics option list strings pretty.

Local Open Scope Z_scope.

(** ** Words *)

(** Conversion of an [int] result back to [uint16_t]. *)
Definition wrap16 (z : Z) : Z := z mod 65536.

Definition is_word (z : Z) : Prop := 0 <= z < 65536.

(** ** Flag bits: [getbit] and [setbit] *)

(** [uint16_t mask = 1 << bitpos; return (num & mask);] *)
Definition getbit (num bitpos : Z) : Z :=
  let mask := wrap16 (Z.shiftl 1 bitpos) in
  Z.land num mask.

(** [num |= mask] when [set], [num &= ~mask] otherwise; [~mask] is
    computed on the promoted [int] and the result is stored back into
    sixteen bits. *)
Definition setbit (num bitpos : Z) (set : bool) : Z :=
  let mask := wrap16 (Z.shiftl 1 bitpos) in
  if set then wrap16 (Z.lor num mask)
  else wrap16 (Z.land num (Z.lnot mask)).

(** ** Decoder: the four nibbles of the first instruction word *)

Definition getNibble1 (num : Z) : Z := Z.shiftr num 12.
Definition getNibble2 (num : Z) : Z := Z.land (Z.shiftr num 8) 0x000F.
Definition getNibble3 (num : Z) : Z := Z.land (Z.shiftr num 4) 0x000F.
Definition getNibble4 (num : Z) : Z := Z.land num 0x000F.

(** ** Machine state *)

(** [uint16_t ROM[0xFFFF]], [uint16_t RAM[0xFFFF]], [uint16_t reg[5]]. *)
Definition ROM_SIZE : Z := 0xFFFF.
Definition RAM_SIZE : Z := 0xFFFF.
Definition NREG : Z := 5.

Record machine : Type := Machine {
  reg : list Z;      (* reg[0] program counter, reg[1] flags, reg[2..4] *)
  halt : bool;
  RAM : list Z;
  cout : string      (* everything written to std::cout so far *)
}.

Definition with_reg (st : machine) (r : list Z) : machine :=
  {| reg := r; halt := halt st; RAM := RAM st; cout := cout st |}.

Definition with_halt (st : machine) (h : bool) : machine :=
  {| reg := reg st; halt := h; RAM := RAM st; cout := cout st |}.

Definition with_RAM (st : machine) (m : list Z) : machine :=
  {| reg := reg st; halt := halt st; RAM := m; cout := cout st |}.

(** The same state over another data store. *)
Definition put_RAM (ram : list Z) (st : machine) : machine := with_RAM st ram.

Definition with_cout (st : machine) (s : string) : machine :=
  {| reg := reg st; halt := halt st; RAM := RAM st; cout := s |}.

(** ** Outcomes *)

(** The two array subscripts the program evaluates that can fall outside
    their array.  C++ gives such an access no meaning. *)
Inductive undefined : Type :=
  | reg_out_of_range (index : Z)
  | ROM_out_of_range (index : Z).

Inductive outcome (A : Type) : Type :=
  | Ok (a : A)
  | UB (u : undefined)
  | OutOfFuel.

Arguments Ok {A} a.
Arguments UB {A} u.
Arguments OutOfFuel {A}.

#[global] Instance outcome_ret : MRet outcome := fun A a => Ok a.

#[global] Instance outcome_bind : MBind outcome := fun A B k m =>
  match m with
  | Ok a => k a
  | UB u => UB u
  | OutOfFuel => OutOfFuel
  end.

#[global] Instance outcome_fmap : FMap outcome := fun A B f m =>
  match m with
  | Ok a => Ok (f a)
  | UB u => UB u
  | OutOfFuel => OutOfFuel
  end.

(** [reg[i]] as an rvalue. *)
Definition get_reg (st : machine) (i : Z) : outcome Z :=
  match reg st !! Z.to_nat i with
  | Some v => Ok v
  | None => UB (reg_out_of_range i)
  end.

(** [reg[i] = v]. *)
Definition set_reg (st : machine) (i v : Z) : outcome machine :=
  match reg st !! Z.to_nat i with
  | Some _ => Ok (with_reg st (<[Z.to_nat i := v]> (reg st)))
  | None => UB (reg_out_of_range i)
  end.

(** [ROM[i]] as an rvalue; [i] is an [int], it does not wrap. *)
Definition read_ROM (rom : list Z) (i : Z) : outcome Z :=
  match rom !! Z.to_nat i with
  | Some v => Ok v
  | None => UB (ROM_out_of_range i)
  end.

(** ** Output *)

Definition endl : string := String "010"%char EmptyString.

(** [std::cout << v << std::endl] for a [uint16_t] [v]: unsigned decimal. *)
Definition print_line (st : machine) (v : Z) : machine :=
  with_cout st (cout st +:+ pretty v +:+ endl).

(** ** The execution engine: [runInstruction] *)

(** The body of CMP: three clears of the flag bits, then one conditional
    set, every access going through [reg[1]], [reg[n2]] and [reg[n3]] in
    the order of the source. *)
Definition clear_flag (st : machine) (bitpos : Z) : outcome machine :=
  f ← get_reg st 1; set_reg st 1 (setbit f bitpos false).

Definition raise_flag (st : machine) (bitpos : Z) : outcome machine :=
  f ← get_reg st 1; set_reg st 1 (setbit f bitpos true).

Definition CMP (st : machine) (n2 n3 : Z) : outcome machine :=
  st ← clear_flag st 0;
  st ← clear_flag st 1;
  st ← clear_flag st 2;
  a ← get_reg st n2;
  b ← get_reg st n3;
  if a >? b then raise_flag st 0
  else if a =? b then raise_flag st 1
  else if a <? b then raise_flag st 2
  else Ok st.

(** The body of J. *)
Definition J (st : machine) (n2 n3 address : Z) : outcome machine :=
  if n2 =? 0 then
    f ← get_reg st 1;
    if getbit f n3 =? 0 then set_reg st 0 address else Ok st
  else if n2 =? 1 then
    f ← get_reg st 1;
    if getbit f n3 =? 0 then Ok st else set_reg st 0 address
  else set_reg st 0 address.

(** [reg[0] += 2;  // program counter increments to next instruction] *)
Definition advance_pc (st : machine) : outcome machine :=
  pc ← get_reg st 0;
  set_reg st 0 (wrap16 (pc + 2)).

(** [switch (n1) { ... }] *)
Definition dispatch (st : machine) (n1 n2 n3 n4 address : Z)
  : outcome machine :=
  match n1 with
  | 0x0 => (* ADD *)
      a ← get_reg st n2;
      b ← get_reg st n3;
      set_reg st n4 (wrap16 (a + b))
  | 0x5 => CMP st n2 n3
  | 0x6 => (* CPY *)
      a ← get_reg st n2;
      set_reg st n3 a
  | 0x7 => (* OUT *)
      a ← get_reg st n2;
      Ok (print_line st a)
  | 0xA => (* LDV *)
      set_reg st n2 address
  | 0xE => J st n2 n3 address
  | _ => (* undefined instructions are HLT *)
      Ok (with_halt st true)
  end.

Definition runInstruction (st : machine) (instruction address : Z)
  : outcome machine :=
  let n1 := getNibble1 instruction in   (* opcode *)
  let n2 := getNibble2 instruction in
  let n3 := getNibble3 instruction in
  let n4 := getNibble4 instruction in
  st ← advance_pc st;
  dispatch st n1 n2 n3 n4 address.

(** ** The run loop of [main] *)

(** One turn of [while(!halt)]: both words are fetched, then the
    instruction runs.  The pacing [usleep] has no effect on the state. *)
Definition cycle (rom : list Z) (st : machine) : outcome machine :=
  pc ← get_reg st 0;
  instruction ← read_ROM rom pc;
  address ← read_ROM rom (pc + 1);
  runInstruction st instruction address.

(** The loop, with [fuel] bounding the number of turns. *)
Fixpoint run (rom : list Z) (fuel : nat) (st : machine) : outcome machine :=
  if halt st then Ok st
  else match fuel with
       | O => OutOfFuel
       | S fuel' => st' ← cycle rom st; run rom fuel' st'
       end.

(** ** Program store set-up of [main] *)

(** [for (i = 0; i < 0xFFFF; i++) ROM[i] = 0xFFFF;] followed by the
    assignments [ROM[0] = ...; ROM[1] = ...; ...] of a program. *)
Definition HLT_fill : list Z := replicate (Z.to_nat ROM_SIZE) 0xFFFF.

Definition load (words : list Z) : list Z := list_inserts 0 words HLT_fill.

Definition fibonacci_code : list Z :=
  [ 0xA200; 0x0000;    (* LDV 2, 0x0000 *)
    0xA300; 0x0001;    (* LDV 3, 0x0001 *)
    0x0234; 0x0000;    (* ADD 2 3 4 *)
    0x7400; 0x0000;    (* OUT 4 *)
    0x6320; 0x0000;    (* CPY 3 2 *)
    0x6430; 0x0000;    (* CPY 4 3 *)
    0x0234; 0x0000;    (* ADD 2 3 4 *)
    0x5430; 0x0000;    (* CMP 4 3 *)
    0xE100; 0x0006 ].  (* J 1 0, 0x0006 *)

(** State of the globals when [main] starts; the contents of the data
    store are left open. *)
Definition power_on (ram : list Z) : machine :=
  {| reg := replicate (Z.to_nat NREG) 0; halt := false; RAM := ram; cout := "" |}.

Definition main (fuel : nat) (ram : list Z) : outcome machine :=
  run (load fibonacci_code) fuel (power_on ram).

(** ** Well-formed states *)

Definition wf (st : machine) : Prop :=
  length (reg st) = Z.to_nat NREG /\ Forall is_word (reg st).

(** [n] turns of the loop body, without the test of [halt]: used to name
    the state the machine is in after a given number of cycles. *)
Fixpoint cycles (rom : list Z) (n : nat) (st : machine) : outcome machine :=
  match n with
  | O => Ok st
  | S n' => st' ← cycle rom st; cycles rom n' st'
  end.

(** ** Vocabulary for the statements *)

(** The field an instruction uses as the index of the register it
    assigns: [n4] for ADD, [n3] for CPY, [n2] for LDV. *)
Definition destination (instruction : Z) : option Z :=
  match getNibble1 instruction with
  | 0x0 => Some (getNibble4 instruction)
  | 0x6 => Some (getNibble3 instruction)
  | 0xA => Some (getNibble2 instruction)
  | _ => None
  end.

(** The fields an instruction uses as subscripts of [reg]. *)
Definition register_operands (instruction : Z) : list Z :=
  match getNibble1 instruction with
  | 0x0 => [getNibble2 instruction; getNibble3 instruction; getNibble4 instruction]
  | 0x5 => [getNibble2 instruction; getNibble3 instruction]
  | 0x6 => [getNibble2 instruction; getNibble3 instruction]
  | 0x7 => [getNibble2 instruction]
  | 0xA => [getNibble2 instruction]
  | _ => []
  end.

(** Opcodes that have a [case] of their own in the [switch]. *)
Definition implemented (n1 : Z) : bool :=
  bool_decide (n1 ∈ [0x0; 0x5; 0x6; 0x7; 0xA; 0xE]).

(** Whether J with mode [n2] and flag bit [n3] jumps, on flags [f]. *)
Definition jump_taken (f n2 n3 : Z) : bool :=
  if n2 =? 0 then negb (Z.testbit f n3)
  else if n2 =? 1 then Z.testbit f n3
  else true.

(** The state in which the [switch] is entered. *)
Definition at_dispatch (st : machine) (pc : Z) : machine :=
  with_reg st (<[0%nat := wrap16 (pc + 2)]> (reg st)).

(** Flags with the three comparison bits cleared. *)
Definition cleared (f : Z) : Z := Z.land f 0xFFF8.

(** The bit CMP raises for operands [a] and [b]. *)
Definition compare_bit (a b : Z) : Z :=
  if a >? b then 0 else if a =? b then 1 else 2.

(** The state in which CMP reads its two operands. *)
Definition at_compare (st : machine) (f : Z) : machine :=
  with_reg st (<[1%nat := cleared f]> (reg st)).

Definition exactly_one (x y z : bool) : bool :=
  (x && negb y && negb z) || (negb x && y && negb z) || (negb x && negb y && z).

(** The Fibonacci numbers: 0, 1, 1, 2, 3, 5, ... *)
Fixpoint fib (n : nat) : Z :=
  match n with
  | O => 0
  | S n' =>
      match n' with
      | O => 1
      | S n'' => fib n' + fib n''
      end
  end.

(** What [std::cout] holds after the values [vs] were printed in turn. *)
Definition lines (vs : list Z) : string :=
  foldl (fun s v => s +:+ pretty v +:+ endl) "" vs.

Definition zero_RAM : list Z := replicate (Z.to_nat RAM_SIZE) 0.

(** The first instruction word with the given four nibbles. *)
Definition encode (n1 n2 n3 n4 : Z) : Z :=
  4096 * n1 + 256 * n2 + 16 * n3 + n4.

Definition is_nibble (n : Z) : Prop := 0 <= n < 16.

(** The comparison a flag bit stands for after CMP of [a] with [b]. *)
Definition flag_meaning (k a b : Z) : bool :=
  if k =? 0 then a >? b else if k =? 1 then a =? b else a <? b.

(** A program without jumps: no instruction word (the words at even
    addresses) is a J or names slot 0 as its destination, and each uses
    only register indices below 5. *)
Definition straight_line (words : list Z) : Prop :=
  forall (k : nat) (i : Z),
    words !! (2 * k)%nat = Some i ->
    getNibble1 i <> 0xE /\ destination i <> Some 0 /\
    Forall (fun r => r < NREG) (register_operands i).

(** * Properties *)

(** ** Decoder *)

Lemma getNibble1_range w : is_word w -> 0 <= getNibble1 w < 16.
Proof.
  intros [Hlo Hhi]. unfold getNibble1.
  rewrite Z.shiftr_div_pow2 by lia. change (2 ^ 12) with 4096.
  split.
  - apply Z.div_pos; lia.
  - apply Z.div_lt_upper_bound; lia.
Qed.

Lemma land_15_range x : 0 <= Z.land x 0x000F < 16.
Proof.
  change 0x000F with (Z.ones 4). rewrite Z.land_ones by lia.
  apply Z.mod_pos_bound. reflexivity.
Qed.

Lemma getNibble2_range w : 0 <= getNibble2 w < 16.
Proof. apply land_15_range. Qed.

Lemma getNibble3_range w : 0 <= getNibble3 w < 16.
Proof. apply land_15_range. Qed.

Lemma getNibble4_range w : 0 <= getNibble4 w < 16.
Proof. apply land_15_range. Qed.

Lemma wrap16_word z : is_word (wrap16 z).
Proof. unfold is_word, wrap16. apply Z.mod_pos_bound. reflexivity. Qed.

Lemma wrap16_id z : is_word z -> wrap16 z = z.
Proof. unfold is_word, wrap16. intros H. apply Z.mod_small. exact H. Qed.

(** ** Register file *)

Section registers.
Variable st : machine.
Hypothesis Hwf : wf st.

Lemma reg_length : length (reg st) = 5%nat.
Proof. exact (proj1 Hwf). Qed.

Lemma reg_lookup (i : Z) :
  0 <= i < NREG -> exists v, reg st !! Z.to_nat i = Some v /\ is_word v.
Proof.
  intros Hi. unfold NREG in Hi.
  destruct (lookup_lt_is_Some_2 (reg st) (Z.to_nat i)) as [v Hv].
  { rewrite reg_length. lia. }
  exists v. split; [exact Hv|].
  destruct Hwf as [_ Hall]. rewrite Forall_lookup in Hall. eauto.
Qed.

Lemma reg_lookup_none (i : Z) : NREG <= i -> reg st !! Z.to_nat i = None.
Proof.
  unfold NREG. intros Hi. apply lookup_ge_None_2. rewrite reg_length. lia.
Qed.

Lemma get_reg_Some (i v : Z) :
  reg st !! Z.to_nat i = Some v -> get_reg st i = Ok v.
Proof. unfold get_reg. intros ->. reflexivity. Qed.

Lemma get_reg_None (i : Z) :
  NREG <= i -> get_reg st i = UB (reg_out_of_range i).
Proof. intros Hi. unfold get_reg. rewrite reg_lookup_none by exact Hi. reflexivity. Qed.

Lemma set_reg_in (i v : Z) :
  0 <= i < NREG ->
  set_reg st i v = Ok (with_reg st (<[Z.to_nat i := v]> (reg st))).
Proof.
  intros Hi. unfold set_reg.
  destruct (reg_lookup i Hi) as (w & -> & _). reflexivity.
Qed.

Lemma set_reg_None (i v : Z) :
  NREG <= i -> set_reg st i v = UB (reg_out_of_range i).
Proof. intros Hi. unfold set_reg. rewrite reg_lookup_none by exact Hi. reflexivity. Qed.

Lemma wf_insert (k : nat) (v : Z) :
  is_word v -> wf (with_reg st (<[k := v]> (reg st))).
Proof.
  intros Hv. destruct Hwf as [Hlen Hall]. split; simpl.
  - rewrite length_insert. exact Hlen.
  - apply Forall_insert; assumption.
Qed.

Lemma advance_pc_eq (pc : Z) :
  reg st !! 0%nat = Some pc -> advance_pc st = Ok (at_dispatch st pc).
Proof.
  intros Hpc. unfold advance_pc.
  rewrite (get_reg_Some 0 pc) by exact Hpc. simpl.
  rewrite set_reg_in by (unfold NREG; lia). reflexivity.
Qed.

Lemma wf_at_dispatch (pc : Z) : wf (at_dispatch st pc).
Proof. apply wf_insert, wrap16_word. Qed.

Lemma runInstruction_eq (instruction address pc : Z) :
  reg st !! 0%nat = Some pc ->
  runInstruction st instruction address =
  dispatch (at_dispatch st pc) (getNibble1 instruction)
    (getNibble2 instruction) (getNibble3 instruction)
    (getNibble4 instruction) address.
Proof.
  intros Hpc. unfold runInstruction. rewrite (advance_pc_eq pc Hpc). reflexivity.
Qed.

Lemma pc_exists : exists pc, reg st !! 0%nat = Some pc /\ is_word pc.
Proof. apply (reg_lookup 0). unfold NREG. lia. Qed.
End registers.

(** ** Flag bits *)

Lemma mask_pow2 k : 0 <= k < 16 -> wrap16 (Z.shiftl 1 k) = 2 ^ k.
Proof.
  intros Hk. rewrite Z.shiftl_1_l. apply wrap16_id. split.
  - apply Z.pow_nonneg. lia.
  - change 65536 with (2 ^ 16). apply Z.pow_lt_mono_r; lia.
Qed.

Lemma word_high_bits f j : is_word f -> 16 <= j -> Z.testbit f j = false.
Proof.
  intros Hf Hj. rewrite <- (wrap16_id f Hf). unfold wrap16.
  change 65536 with (2 ^ 16). apply Z.mod_pow2_bits_high. lia.
Qed.

Lemma testbit_setbit x k b j :
  0 <= k < 16 ->
  Z.testbit (setbit x k b) j =
  (j <? 16) && (if j =? k then b else Z.testbit x j).
Proof.
  intros Hk. destruct (Z.ltb_spec j 0) as [Hneg|Hpos].
  { rewrite Z.testbit_neg_r by lia.
    destruct (Z.eqb_spec j k); [lia|].
    rewrite (Z.testbit_neg_r x) by lia. symmetry. apply andb_false_r. }
  unfold setbit. rewrite mask_pow2 by exact Hk.
  destruct b; unfold wrap16; change 65536 with (2 ^ 16);
    rewrite Z.testbit_mod_pow2 by lia; f_equal.
  - rewrite Z.lor_spec, Z.pow2_bits_eqb by lia.
    rewrite (Z.eqb_sym k j). destruct (j =? k); [apply orb_true_r|apply orb_false_r].
  - rewrite Z.land_spec, Z.lnot_spec, Z.pow2_bits_eqb by lia.
    rewrite (Z.eqb_sym k j). destruct (j =? k); [apply andb_false_r|apply andb_true_r].
Qed.

Lemma setbit_word x k b : is_word (setbit x k b).
Proof. unfold setbit. destruct b; apply wrap16_word. Qed.

(** Clearing bits 0, 1 and 2 in turn leaves the flags with their three
    low bits removed. *)
Lemma clear_three f :
  is_word f ->
  setbit (setbit (setbit f 0 false) 1 false) 2 false = cleared f.
Proof.
  intros Hf. apply Z.bits_inj'. intros j Hj.
  rewrite !testbit_setbit by lia. unfold cleared.
  rewrite Z.land_spec.
  change 0xFFF8 with (Z.shiftl (Z.ones 13) 3).
  rewrite Z.shiftl_spec, Z.testbit_ones by lia.
  destruct (Z.ltb_spec j 16) as [Hlt|Hge].
  - destruct (Z.eqb_spec j 2) as [->|H2]; [destruct (Z.testbit f 2); reflexivity|].
    destruct (Z.eqb_spec j 1) as [->|H1]; [destruct (Z.testbit f 1); reflexivity|].
    destruct (Z.eqb_spec j 0) as [->|H0]; [destruct (Z.testbit f 0); reflexivity|].
    simpl.
    replace (0 <=? j - 3) with true by (symmetry; apply Z.leb_le; lia).
    replace (j - 3 <? 13) with true by (symmetry; apply Z.ltb_lt; lia).
    symmetry. apply andb_true_r.
  - rewrite (word_high_bits f j Hf) by lia. reflexivity.
Qed.

Lemma cleared_word f : is_word f -> is_word (cleared f).
Proof. intros Hf. rewrite <- (clear_three f Hf). apply setbit_word. Qed.

Lemma land_pow2 a k :
  0 <= k -> Z.land a (2 ^ k) = if Z.testbit a k then 2 ^ k else 0.
Proof.
  intros Hk. apply Z.bits_inj'. intros j Hj.
  rewrite Z.land_spec, Z.pow2_bits_eqb by lia.
  destruct (Z.eqb_spec k j) as [->|Hne].
  - destruct (Z.testbit a j) eqn:E; simpl.
    + symmetry. apply Z.pow2_bits_true. lia.
    + symmetry. apply Z.bits_0.
  - rewrite andb_false_r. destruct (Z.testbit a k).
    + symmetry. apply Z.pow2_bits_false. exact Hne.
    + symmetry. apply Z.bits_0.
Qed.

(** [!getbit(num, bitpos)] tests that bit [bitpos] of [num] is clear. *)
Lemma getbit_zero f k :
  0 <= k < 16 -> (getbit f k =? 0) = negb (Z.testbit f k).
Proof.
  intros Hk. unfold getbit. rewrite mask_pow2 by exact Hk.
  rewrite land_pow2 by lia. destruct (Z.testbit f k); simpl; [|reflexivity].
  apply Z.eqb_neq. assert (0 < 2 ^ k) by (apply Z.pow_pos_nonneg; lia). lia.
Qed.

Lemma exactly_one_compare a b : exactly_one (a >? b) (a =? b) (a <? b) = true.
Proof.
  unfold exactly_one. rewrite Z.gtb_ltb.
  destruct (Z.ltb_spec b a), (Z.eqb_spec a b), (Z.ltb_spec a b); simpl; lia.
Qed.

(** ** Sequencing *)

Lemma bind_Ok {A B : Type} (m : outcome A) (k : A -> outcome B) (b : B) :
  m ≫= k = Ok b -> exists a, m = Ok a /\ k a = Ok b.
Proof. destruct m as [a| |]; simpl; intros H; [eauto|discriminate..]. Qed.

Lemma get_reg_Ok st i v : get_reg st i = Ok v -> reg st !! Z.to_nat i = Some v.
Proof. unfold get_reg. destruct (reg st !! Z.to_nat i); congruence. Qed.

Lemma set_reg_Ok st i v st' :
  set_reg st i v = Ok st' -> st' = with_reg st (<[Z.to_nat i := v]> (reg st)).
Proof. unfold set_reg. destruct (reg st !! Z.to_nat i); congruence. Qed.

Lemma get_reg_with_RAM st ram i : get_reg (with_RAM st ram) i = get_reg st i.
Proof. reflexivity. Qed.

Lemma set_reg_with_RAM st ram i v :
  set_reg (with_RAM st ram) i v = (fun s => with_RAM s ram) <$> set_reg st i v.
Proof. unfold set_reg; simpl. destruct (reg st !! Z.to_nat i); reflexivity. Qed.

(** ** Opcode dispatch *)

Lemma implemented_cases n1 :
  implemented n1 = true ->
  n1 = 0x0 \/ n1 = 0x5 \/ n1 = 0x6 \/ n1 = 0x7 \/ n1 = 0xA \/ n1 = 0xE.
Proof.
  unfold implemented. intros H. apply bool_decide_eq_true in H.
  rewrite !elem_of_cons, elem_of_nil in H. tauto.
Qed.

Lemma dispatch_default st n1 n2 n3 n4 address :
  implemented n1 = false ->
  dispatch st n1 n2 n3 n4 address = Ok (with_halt st true).
Proof.
  intros H. unfold dispatch.
  destruct n1 as [|p|p]; [discriminate H|..|reflexivity].
  repeat (destruct p as [p|p|]; try reflexivity; try discriminate H).
Qed.

Lemma opcode_cases n1 :
  n1 = 0x0 \/ n1 = 0x5 \/ n1 = 0x6 \/ n1 = 0x7 \/ n1 = 0xA \/ n1 = 0xE \/
  implemented n1 = false.
Proof.
  destruct (implemented n1) eqn:E; [|tauto].
  apply implemented_cases in E. tauto.
Qed.

(** ** Comparison *)

Lemma flag_lookup st f v :
  wf st -> reg st !! 1%nat = Some f ->
  reg (with_reg st (<[1%nat := v]> (reg st))) !! 1%nat = Some v.
Proof.
  intros Hwf _. simpl. apply list_lookup_insert_eq.
  rewrite (reg_length st Hwf). lia.
Qed.

Lemma clear_flag_eq st k f :
  wf st -> reg st !! 1%nat = Some f ->
  clear_flag st k = Ok (with_reg st (<[1%nat := setbit f k false]> (reg st))).
Proof.
  intros Hwf Hf. unfold clear_flag.
  rewrite (get_reg_Some st 1 f) by exact Hf. simpl.
  rewrite set_reg_in by (exact Hwf || (unfold NREG; lia)). reflexivity.
Qed.

Lemma raise_flag_eq st k f :
  wf st -> reg st !! 1%nat = Some f ->
  raise_flag st k = Ok (with_reg st (<[1%nat := setbit f k true]> (reg st))).
Proof.
  intros Hwf Hf. unfold raise_flag.
  rewrite (get_reg_Some st 1 f) by exact Hf. simpl.
  rewrite set_reg_in by (exact Hwf || (unfold NREG; lia)). reflexivity.
Qed.

Lemma ret_bind {A B : Type} (a : A) (k : A -> outcome B) : Ok a ≫= k = k a.
Proof. reflexivity. Qed.

Lemma with_reg_with_reg st r r' : with_reg (with_reg st r) r' = with_reg st r'.
Proof. reflexivity. Qed.

Lemma reg_with_reg st r : reg (with_reg st r) = r.
Proof. reflexivity. Qed.

Lemma CMP_eq st n2 n3 f :
  wf st -> reg st !! 1%nat = Some f -> is_word f ->
  CMP st n2 n3 =
  a ← get_reg (at_compare st f) n2;
  b ← get_reg (at_compare st f) n3;
  Ok (with_reg st (<[1%nat := setbit (cleared f) (compare_bit a b) true]> (reg st))).
Proof.
  intros Hwf Hf Hword. unfold CMP.
  assert (Hins : forall v, is_word v -> wf (with_reg st (<[1%nat := v]> (reg st))))
    by (intros v Hv; apply wf_insert; assumption).
  rewrite (clear_flag_eq st 0 f Hwf Hf), ret_bind.
  rewrite (clear_flag_eq _ 1 _ (Hins _ (setbit_word _ _ _)) (flag_lookup st f _ Hwf Hf)).
  rewrite ret_bind, reg_with_reg, with_reg_with_reg, list_insert_insert_eq.
  rewrite (clear_flag_eq _ 2 _ (Hins _ (setbit_word _ _ _)) (flag_lookup st f _ Hwf Hf)).
  rewrite ret_bind, reg_with_reg, with_reg_with_reg, list_insert_insert_eq.
  rewrite (clear_three f Hword).
  fold (at_compare st f).
  assert (Hwf3 : wf (at_compare st f)) by (apply Hins, cleared_word, Hword).
  assert (Hf3 : reg (at_compare st f) !! 1%nat = Some (cleared f))
    by (apply (flag_lookup st f); assumption).
  destruct (get_reg (at_compare st f) n2) as [a| |]; [|reflexivity..].
  rewrite !ret_bind.
  destruct (get_reg (at_compare st f) n3) as [b| |]; [|reflexivity..].
  rewrite !ret_bind.
  assert (Hraise : forall k, raise_flag (at_compare st f) k =
            Ok (with_reg st (<[1%nat := setbit (cleared f) k true]> (reg st)))).
  { intros k. rewrite (raise_flag_eq _ k _ Hwf3 Hf3). unfold at_compare.
    rewrite reg_with_reg, with_reg_with_reg, list_insert_insert_eq. reflexivity. }
  unfold compare_bit. rewrite Z.gtb_ltb.
  destruct (Z.ltb_spec b a); [apply Hraise|].
  destruct (Z.eqb_spec a b); [apply Hraise|].
  destruct (Z.ltb_spec a b); [apply Hraise|lia].
Qed.

(** ** Arithmetic *)

Lemma at_dispatch_other st pc (k : nat) :
  k <> 0%nat -> reg (at_dispatch st pc) !! k = reg st !! k.
Proof. intros Hk. unfold at_dispatch. rewrite reg_with_reg. apply list_lookup_insert_ne. lia. Qed.

Lemma at_dispatch_pc st pc :
  wf st -> reg (at_dispatch st pc) !! 0%nat = Some (wrap16 (pc + 2)).
Proof.
  intros Hwf. unfold at_dispatch. rewrite reg_with_reg.
  apply list_lookup_insert_eq. rewrite (reg_length st Hwf). lia.
Qed.

(** C9: ADD stores the sum of its two operand registers modulo 65536 in
    the destination register and never fails: for every instruction word
    with opcode 0 whose three selectors name registers, [runInstruction]
    returns normally, the destination holds [(a + b) mod 65536] where [a]
    and [b] are the 16-bit values the operand registers hold when the
    opcode is dispatched (for every register but the program counter
    these are the values held before the instruction), and nothing but
    the destination is changed by the addition. *)
Theorem ADD_wraps (st : machine) (instruction address pc : Z) :
  wf st ->
  getNibble1 instruction = 0x0 ->
  getNibble2 instruction < NREG ->
  getNibble3 instruction < NREG ->
  getNibble4 instruction < NREG ->
  reg st !! 0%nat = Some pc ->
  let A := Z.to_nat (getNibble2 instruction) in
  let B := Z.to_nat (getNibble3 instruction) in
  let C := Z.to_nat (getNibble4 instruction) in
  exists a b st',
    reg (at_dispatch st pc) !! A = Some a /\ is_word a /\
    reg (at_dispatch st pc) !! B = Some b /\ is_word b /\
    (A <> 0%nat -> reg st !! A = Some a) /\
    (B <> 0%nat -> reg st !! B = Some b) /\
    runInstruction st instruction address = Ok st' /\
    reg st' !! C = Some ((a + b) mod 65536) /\
    (forall k, k <> C -> reg st' !! k = reg (at_dispatch st pc) !! k) /\
    halt st' = halt st /\ RAM st' = RAM st /\ cout st' = cout st.
Proof.
  intros Hwf Hop HA HB HC Hpc A B C.
  pose proof (getNibble2_range instruction) as RA.
  pose proof (getNibble3_range instruction) as RB.
  pose proof (getNibble4_range instruction) as RC.
  pose proof (wf_at_dispatch st Hwf pc) as Hwf1.
  destruct (reg_lookup _ Hwf1 (getNibble2 instruction)) as (a & Ha & Wa); [lia|].
  destruct (reg_lookup _ Hwf1 (getNibble3 instruction)) as (b & Hb & Wb); [lia|].
  exists a, b. eexists. split_and!; try eassumption.
  - intros HA0. rewrite <- Ha. symmetry. apply at_dispatch_other, HA0.
  - intros HB0. rewrite <- Hb. symmetry. apply at_dispatch_other, HB0.
  - rewrite (runInstruction_eq st Hwf instruction address pc Hpc), Hop.
    unfold dispatch.
    rewrite (get_reg_Some _ _ a Ha), ret_bind.
    rewrite (get_reg_Some _ _ b Hb), ret_bind.
    apply set_reg_in; [exact Hwf1|lia].
  - rewrite reg_with_reg. apply list_lookup_insert_eq.
    rewrite (reg_length _ Hwf1). unfold NREG in HC. lia.
  - intros k Hk. rewrite reg_with_reg. apply list_lookup_insert_ne. fold C. congruence.
  - reflexivity.
  - reflexivity.
  - reflexivity.
Qed.

Lemma ADD_wraps_witness :
  exists st', runInstruction (Machine [0; 0; 65535; 3; 0] false zero_RAM "") 0x0234 0 = Ok st'
              /\ reg st' !! 4%nat = Some 2.
Proof.
  generalize zero_RAM. intros ram.
  destruct (ADD_wraps (Machine [0; 0; 65535; 3; 0] false ram "") 0x0234 0 0)
    as (a & b & st' & Ha & _ & Hb & _ & _ & _ & Hrun & HC & _).
  - split; [reflexivity|]. repeat constructor; unfold is_word; lia.
  - reflexivity.
  - reflexivity.
  - reflexivity.
  - reflexivity.
  - reflexivity.
  - exists st'. split; [exact Hrun|].
    vm_compute in Ha, Hb. injection Ha as <-. injection Hb as <-. exact HC.
Defined.

(** ** Comparison flags *)

Lemma testbit_cleared f j :
  is_word f -> Z.testbit (cleared f) j = (3 <=? j) && Z.testbit f j.
Proof.
  intros Hf. rewrite <- (clear_three f Hf), !testbit_setbit by lia.
  destruct (Z.ltb_spec j 16) as [Hlt|Hge].
  - destruct (Z.eqb_spec j 2) as [->|?]; [reflexivity|].
    destruct (Z.eqb_spec j 1) as [->|?]; [reflexivity|].
    destruct (Z.eqb_spec j 0) as [->|?]; [reflexivity|].
    destruct (Z.leb_spec 3 j); [reflexivity|].
    simpl. apply Z.testbit_neg_r. lia.
  - rewrite (word_high_bits f j Hf) by lia. symmetry. apply andb_false_r.
Qed.

Lemma compare_bit_range a b : 0 <= compare_bit a b < 16.
Proof. unfold compare_bit. destruct (a >? b), (a =? b); lia. Qed.

Lemma testbit_compare f a b j :
  is_word f ->
  Z.testbit (setbit (cleared f) (compare_bit a b) true) j =
  if j =? compare_bit a b then j <? 16 else (3 <=? j) && Z.testbit f j.
Proof.
  intros Hf. rewrite testbit_setbit by apply compare_bit_range.
  rewrite (testbit_cleared f j Hf).
  destruct (j =? compare_bit a b); [apply andb_true_r|].
  destruct (Z.ltb_spec j 16); [reflexivity|].
  rewrite (word_high_bits f j Hf) by lia. symmetry. apply andb_false_r.
Qed.

(** C3, as the code has it: CMP raises exactly one of the flag bits 0
    (greater), 1 (equal), 2 (less), by the unsigned comparison of the two
    values it reads from its operand registers, clears the other two, and
    leaves bits 3 to 15 of the flags as they were before the instruction.
    The operands are read after the program counter was advanced and
    after the three flag bits were cleared: for the general-purpose
    registers 2, 3 and 4 they are the values held before the instruction;
    slot 0 reads as the advanced counter and slot 1 as the flags without
    their three low bits. *)
Theorem CMP_flags (st : machine) (instruction address pc f : Z) :
  wf st ->
  getNibble1 instruction = 0x5 ->
  getNibble2 instruction < NREG ->
  getNibble3 instruction < NREG ->
  reg st !! 0%nat = Some pc ->
  reg st !! 1%nat = Some f ->
  let A := Z.to_nat (getNibble2 instruction) in
  let B := Z.to_nat (getNibble3 instruction) in
  let st2 := at_compare (at_dispatch st pc) f in
  exists a b f' st',
    reg st2 !! A = Some a /\
    reg st2 !! B = Some b /\
    ((2 <= A)%nat -> reg st !! A = Some a) /\
    ((2 <= B)%nat -> reg st !! B = Some b) /\
    runInstruction st instruction address = Ok st' /\
    reg st' !! 1%nat = Some f' /\
    Z.testbit f' 0 = (a >? b) /\
    Z.testbit f' 1 = (a =? b) /\
    Z.testbit f' 2 = (a <? b) /\
    exactly_one (Z.testbit f' 0) (Z.testbit f' 1) (Z.testbit f' 2) = true /\
    (forall k, 3 <= k -> Z.testbit f' k = Z.testbit f k) /\
    (forall k, k <> 1%nat -> reg st' !! k = reg (at_dispatch st pc) !! k) /\
    halt st' = halt st /\ RAM st' = RAM st /\ cout st' = cout st.
Proof.
  intros Hwf Hop HA HB Hpc Hf A B st2.
  pose proof (getNibble2_range instruction) as RA.
  pose proof (getNibble3_range instruction) as RB.
  pose proof (wf_at_dispatch st Hwf pc) as Hwf1.
  assert (Hf1 : reg (at_dispatch st pc) !! 1%nat = Some f)
    by (rewrite at_dispatch_other by lia; exact Hf).
  assert (Wf : is_word f).
  { destruct Hwf as [_ Hall]. rewrite Forall_lookup in Hall. eauto. }
  assert (Hwf2 : wf st2) by (apply wf_insert; [exact Hwf1|apply cleared_word, Wf]).
  destruct (reg_lookup _ Hwf2 (getNibble2 instruction)) as (a & Ha & Wa); [lia|].
  destruct (reg_lookup _ Hwf2 (getNibble3 instruction)) as (b & Hb & Wb); [lia|].
  assert (Hold : forall k : nat, (2 <= k)%nat -> reg st2 !! k = reg st !! k).
  { intros k Hk. unfold st2, at_compare. rewrite reg_with_reg.
    rewrite list_lookup_insert_ne by lia. apply at_dispatch_other. lia. }
  set (f' := setbit (cleared f) (compare_bit a b) true).
  assert (B0 : Z.testbit f' 0 = (a >? b)).
  { unfold f'. rewrite (testbit_compare f a b 0 Wf). unfold compare_bit.
    destruct (a >? b); [reflexivity|]. destruct (a =? b); reflexivity. }
  assert (B1 : Z.testbit f' 1 = (a =? b)).
  { unfold f'. rewrite (testbit_compare f a b 1 Wf). unfold compare_bit.
    rewrite Z.gtb_ltb.
    destruct (Z.ltb_spec b a), (Z.eqb_spec a b); try reflexivity; lia. }
  assert (B2 : Z.testbit f' 2 = (a <? b)).
  { unfold f'. rewrite (testbit_compare f a b 2 Wf). unfold compare_bit.
    rewrite Z.gtb_ltb.
    destruct (Z.ltb_spec b a), (Z.eqb_spec a b), (Z.ltb_spec a b);
      try reflexivity; lia. }
  exists a, b, f'. eexists. split_and!; try eassumption.
  - intros HA2. rewrite <- Ha. symmetry. apply Hold, HA2.
  - intros HB2. rewrite <- Hb. symmetry. apply Hold, HB2.
  - rewrite (runInstruction_eq st Hwf instruction address pc Hpc), Hop.
    unfold dispatch. rewrite (CMP_eq _ _ _ f Hwf1 Hf1 Wf).
    fold st2.
    rewrite (get_reg_Some _ _ a Ha), ret_bind.
    rewrite (get_reg_Some _ _ b Hb), ret_bind.
    reflexivity.
  - rewrite reg_with_reg. apply list_lookup_insert_eq.
    rewrite (reg_length _ Hwf1). lia.
  - rewrite B0, B1, B2. apply exactly_one_compare.
  - intros k Hk. unfold f'. rewrite (testbit_compare f a b k Wf).
    pose proof (compare_bit_range a b).
    assert (compare_bit a b < 3) by (unfold compare_bit; destruct (a >? b), (a =? b); lia).
    destruct (Z.eqb_spec k (compare_bit a b)); [lia|].
    destruct (Z.leb_spec 3 k); [reflexivity|lia].
  - intros k Hk. rewrite reg_with_reg. apply list_lookup_insert_ne. congruence.
  - reflexivity.
  - reflexivity.
  - reflexivity.
Qed.

Lemma CMP_flags_witness :
  exists st', runInstruction (Machine [14; 0xFFF1; 0; 9; 7] false zero_RAM "") 0x5430 0 = Ok st'
              /\ reg st' !! 1%nat = Some 0xFFF4.
Proof.
  generalize zero_RAM. intros ram.
  destruct (CMP_flags (Machine [14; 0xFFF1; 0; 9; 7] false ram "") 0x5430 0 14 0xFFF1)
    as (a & b & f' & st' & _ & _ & _ & _ & Hrun & Hf' & _).
  - split; [reflexivity|]. repeat constructor; unfold is_word; lia.
  - reflexivity.
  - reflexivity.
  - reflexivity.
  - reflexivity.
  - reflexivity.
  - exists st'. split; [exact Hrun|].
    vm_compute in Hrun. injection Hrun as <-. reflexivity.
Defined.

(** C3 as stated fails when an operand is the flags register itself:
    with flags 1 and register 2 holding 0, CMP 1 2 compares 1 with 0
    only after it has cleared bit 0 of the flags, and raises the "equal"
    bit although 1 > 0. *)
Lemma CMP_flags_counterexample :
  let st := Machine [0; 1; 0; 0; 0] false zero_RAM "" in
  reg st !! 1%nat = Some 1 /\ reg st !! 2%nat = Some 0 /\
  exists st', runInstruction st 0x5120 0 = Ok st' /\
              reg st' !! 1%nat = Some 2 /\
              Z.testbit 2 0 <> (1 >? 0) /\
              Z.testbit 2 1 <> (1 =? 0).
Proof.
  generalize zero_RAM. intros ram. simpl.
  split; [reflexivity|]. split; [reflexivity|].
  eexists. split; [vm_compute; reflexivity|].
  split; [reflexivity|]. split; discriminate.
Qed.

(** ** Which registers an opcode can change *)

Lemma set_reg_frame st i v st' (k : nat) :
  set_reg st i v = Ok st' ->
  (k <> Z.to_nat i -> reg st' !! k = reg st !! k) /\
  reg st' !! Z.to_nat i = Some v /\
  halt st' = halt st /\ RAM st' = RAM st /\ cout st' = cout st.
Proof.
  unfold set_reg. destruct (reg st !! Z.to_nat i) as [w|] eqn:E; [|discriminate].
  intros [= <-]. split_and!; try reflexivity.
  - intros Hk. rewrite reg_with_reg. apply list_lookup_insert_ne. congruence.
  - rewrite reg_with_reg. apply list_lookup_insert_eq.
    apply lookup_lt_is_Some. eauto.
Qed.

Lemma clear_flag_frame st b st' (k : nat) :
  clear_flag st b = Ok st' -> k <> 1%nat -> reg st' !! k = reg st !! k.
Proof.
  unfold clear_flag. intros H Hk. apply bind_Ok in H as (f & _ & H).
  apply (set_reg_frame _ _ _ _ k) in H as (H & _). apply H. exact Hk.
Qed.

Lemma raise_flag_frame st b st' (k : nat) :
  raise_flag st b = Ok st' -> k <> 1%nat -> reg st' !! k = reg st !! k.
Proof.
  unfold raise_flag. intros H Hk. apply bind_Ok in H as (f & _ & H).
  apply (set_reg_frame _ _ _ _ k) in H as (H & _). apply H. exact Hk.
Qed.

Lemma CMP_frame st n2 n3 st' (k : nat) :
  CMP st n2 n3 = Ok st' -> k <> 1%nat -> reg st' !! k = reg st !! k.
Proof.
  unfold CMP. intros H Hk.
  apply bind_Ok in H as (s1 & H1 & H).
  apply bind_Ok in H as (s2 & H2 & H).
  apply bind_Ok in H as (s3 & H3 & H).
  apply bind_Ok in H as (a & _ & H).
  apply bind_Ok in H as (b & _ & H).
  rewrite <- (clear_flag_frame _ _ _ k H1 Hk), <- (clear_flag_frame _ _ _ k H2 Hk),
    <- (clear_flag_frame _ _ _ k H3 Hk).
  destruct (a >? b); [exact (raise_flag_frame _ _ _ k H Hk)|].
  destruct (a =? b); [exact (raise_flag_frame _ _ _ k H Hk)|].
  destruct (a <? b); [exact (raise_flag_frame _ _ _ k H Hk)|].
  congruence.
Qed.

Lemma J_frame st n2 n3 address st' (k : nat) :
  J st n2 n3 address = Ok st' -> k <> 0%nat -> reg st' !! k = reg st !! k.
Proof.
  unfold J. intros H Hk.
  assert (Hset : forall s', set_reg st 0 address = Ok s' -> reg s' !! k = reg st !! k).
  { intros s' Hs. apply (set_reg_frame _ _ _ _ k) in Hs as (Hs & _). apply Hs. exact Hk. }
  destruct (n2 =? 0).
  { apply bind_Ok in H as (f & _ & H).
    destruct (getbit f n3 =? 0); [apply Hset, H|congruence]. }
  destruct (n2 =? 1).
  { apply bind_Ok in H as (f & _ & H).
    destruct (getbit f n3 =? 0); [congruence|apply Hset, H]. }
  apply Hset, H.
Qed.

(** A register slot differs after [dispatch] only if the opcode is J and
    the slot is 0, the opcode is CMP and the slot is 1, or the slot is the
    destination of ADD, CPY or LDV. *)
Lemma dispatch_frame st n1 n2 n3 n4 address st' (k : nat) :
  dispatch st n1 n2 n3 n4 address = Ok st' ->
  reg st' !! k = reg st !! k \/
  (n1 = 0xE /\ k = 0%nat) \/
  (n1 = 0x5 /\ k = 1%nat) \/
  (n1 = 0x0 /\ k = Z.to_nat n4) \/
  (n1 = 0x6 /\ k = Z.to_nat n3) \/
  (n1 = 0xA /\ k = Z.to_nat n2).
Proof.
  intros H.
  destruct (opcode_cases n1) as [->|[->|[->|[->|[->|[->|Hd]]]]]];
    [unfold dispatch in H..|].
  - destruct (decide (k = Z.to_nat n4)) as [->|Hk]; [tauto|left].
    apply bind_Ok in H as (a & _ & H). apply bind_Ok in H as (b & _ & H).
    apply (set_reg_frame _ _ _ _ k) in H as (H & _). apply H, Hk.
  - destruct (decide (k = 1%nat)) as [->|Hk]; [tauto|left].
    exact (CMP_frame _ _ _ _ k H Hk).
  - destruct (decide (k = Z.to_nat n3)) as [->|Hk]; [tauto|left].
    apply bind_Ok in H as (a & _ & H).
    apply (set_reg_frame _ _ _ _ k) in H as (H & _). apply H, Hk.
  - left. apply bind_Ok in H as (a & _ & H). injection H as <-. reflexivity.
  - destruct (decide (k = Z.to_nat n2)) as [->|Hk]; [tauto|left].
    apply (set_reg_frame _ _ _ _ k) in H as (H & _). apply H, Hk.
  - destruct (decide (k = 0%nat)) as [->|Hk]; [tauto|left].
    exact (J_frame _ _ _ _ _ k H Hk).
  - rewrite (dispatch_default _ _ _ _ _ _ Hd) in H. injection H as <-.
    left. reflexivity.
Qed.

(** How [runInstruction] can change slot [k]. *)
Lemma runInstruction_frame st instruction address pc st' (k : nat) :
  wf st -> reg st !! 0%nat = Some pc ->
  runInstruction st instruction address = Ok st' ->
  reg st' !! k = reg (at_dispatch st pc) !! k \/
  (getNibble1 instruction = 0xE /\ k = 0%nat) \/
  (getNibble1 instruction = 0x5 /\ k = 1%nat) \/
  destination instruction = Some (Z.of_nat k).
Proof.
  intros Hwf Hpc H.
  rewrite (runInstruction_eq st Hwf _ _ pc Hpc) in H.
  pose proof (getNibble2_range instruction) as R2.
  pose proof (getNibble3_range instruction) as R3.
  pose proof (getNibble4_range instruction) as R4.
  destruct (dispatch_frame _ _ _ _ _ _ _ k H)
    as [Hk|[Hk|[Hk|[[Hop Hk]|[[Hop Hk]|[Hop Hk]]]]]]; try tauto;
    right; right; right; unfold destination; rewrite Hop, Hk, Z2Nat.id by lia;
    reflexivity.
Qed.

(** ** Program counter *)

Lemma J_eq st n2 n3 address f :
  wf st -> reg st !! 1%nat = Some f -> 0 <= n3 < 16 ->
  J st n2 n3 address =
  Ok (if jump_taken f n2 n3
      then with_reg st (<[0%nat := address]> (reg st)) else st).
Proof.
  intros Hwf Hf Hn3. unfold J, jump_taken.
  assert (Hset : set_reg st 0 address = Ok (with_reg st (<[0%nat := address]> (reg st))))
    by (apply set_reg_in; [exact Hwf|unfold NREG; lia]).
  destruct (n2 =? 0).
  { rewrite (get_reg_Some st 1 f Hf), ret_bind, getbit_zero by exact Hn3.
    destruct (Z.testbit f n3); [reflexivity|exact Hset]. }
  destruct (n2 =? 1).
  { rewrite (get_reg_Some st 1 f Hf), ret_bind, getbit_zero by exact Hn3.
    destruct (Z.testbit f n3); [exact Hset|reflexivity]. }
  exact Hset.
Qed.

(** C4, as the code has it: after an instruction that is not a jump and
    whose destination register is not slot 0, the program counter is its
    value before the instruction plus 2, modulo 65536; after a taken jump
    (mode 0 and the flag bit clear, mode 1 and the flag bit set, or a
    mode of 2 or more) it is the literal operand; after an untaken jump
    it is the value before the instruction plus 2, modulo 65536. *)
Theorem pc_after_instruction (st : machine) (instruction address pc f : Z)
    (st' : machine) :
  wf st ->
  reg st !! 0%nat = Some pc ->
  reg st !! 1%nat = Some f ->
  runInstruction st instruction address = Ok st' ->
  let n1 := getNibble1 instruction in
  let n2 := getNibble2 instruction in
  let n3 := getNibble3 instruction in
  (n1 <> 0xE -> destination instruction <> Some 0 ->
   reg st' !! 0%nat = Some (wrap16 (pc + 2))) /\
  (n1 = 0xE -> jump_taken f n2 n3 = true -> reg st' !! 0%nat = Some address) /\
  (n1 = 0xE -> jump_taken f n2 n3 = false ->
   reg st' !! 0%nat = Some (wrap16 (pc + 2))).
Proof.
  intros Hwf Hpc Hf Hrun n1 n2 n3.
  pose proof (wf_at_dispatch st Hwf pc) as Hwf1.
  assert (Hf1 : reg (at_dispatch st pc) !! 1%nat = Some f)
    by (rewrite at_dispatch_other by lia; exact Hf).
  split; [|split].
  - intros Hop Hdst.
    destruct (runInstruction_frame st instruction address pc st' 0 Hwf Hpc Hrun)
      as [H|[[H _]|[[_ H]|H]]].
    + rewrite H. apply at_dispatch_pc, Hwf.
    + contradiction.
    + discriminate H.
    + contradiction.
  - intros Hop Htaken.
    rewrite (runInstruction_eq st Hwf _ _ pc Hpc) in Hrun. fold n1 in Hrun.
    rewrite Hop in Hrun. unfold dispatch in Hrun.
    rewrite (J_eq _ _ _ _ f Hwf1 Hf1 (getNibble3_range instruction)) in Hrun.
    fold n2 n3 in Hrun. rewrite Htaken in Hrun. injection Hrun as <-.
    rewrite reg_with_reg. apply list_lookup_insert_eq.
    rewrite length_insert, (reg_length _ Hwf). lia.
  - intros Hop Htaken.
    rewrite (runInstruction_eq st Hwf _ _ pc Hpc) in Hrun. fold n1 in Hrun.
    rewrite Hop in Hrun. unfold dispatch in Hrun.
    rewrite (J_eq _ _ _ _ f Hwf1 Hf1 (getNibble3_range instruction)) in Hrun.
    fold n2 n3 in Hrun. rewrite Htaken in Hrun. injection Hrun as <-.
    apply at_dispatch_pc, Hwf.
Qed.

Lemma pc_after_instruction_witness :
  let st := Machine [16; 1; 0; 0; 0] false zero_RAM "" in
  let st' := Machine [0x100; 1; 0; 0; 0] false zero_RAM "" in
  runInstruction st 0xE100 0x100 = Ok st' /\ reg st' !! 0%nat = Some 0x100.
Proof.
  generalize zero_RAM. intros ram. simpl.
  assert (Hwf : wf (Machine [16; 1; 0; 0; 0] false ram ""))
    by (split; [reflexivity|repeat constructor; unfold is_word; lia]).
  assert (Hrun : runInstruction (Machine [16; 1; 0; 0; 0] false ram "") 0xE100 0x100
                 = Ok (Machine [0x100; 1; 0; 0; 0] false ram ""))
    by (vm_compute; reflexivity).
  split; [exact Hrun|].
  refine (proj1 (proj2 (pc_after_instruction _ 0xE100 0x100 16 1 _ Hwf _ _ Hrun)) _ _);
    reflexivity.
Defined.

(** C4 as stated fails for a non-jump instruction that names slot 0 as
    its destination: LDV 0, 0x0100 at power-on leaves 0x0100 in the
    program counter, not 0 + 2. *)
Lemma pc_after_instruction_counterexample :
  let st := power_on zero_RAM in
  getNibble1 0xA000 <> 0xE /\
  reg st !! 0%nat = Some 0 /\
  exists st', runInstruction st 0xA000 0x0100 = Ok st' /\
              reg st' !! 0%nat = Some 0x0100 /\
              reg st' !! 0%nat <> Some (wrap16 (0 + 2)).
Proof.
  generalize zero_RAM. intros ram. simpl.
  split; [discriminate|]. split; [reflexivity|].
  eexists. split; [vm_compute; reflexivity|].
  split; [reflexivity|discriminate].
Qed.

(** ** Reserved slots *)

(** C7, as the code has it: an instruction leaves in slot 0 something
    other than the advanced program counter only if it is a jump or has
    slot 0 as the destination of ADD, CPY or LDV, and it changes slot 1
    only if it is CMP or has slot 1 as the destination of ADD, CPY or
    LDV; OUT, HLT and the undefined opcodes change neither. *)
Theorem reserved_slots (st : machine) (instruction address pc : Z)
    (st' : machine) :
  wf st ->
  reg st !! 0%nat = Some pc ->
  runInstruction st instruction address = Ok st' ->
  (reg st' !! 0%nat <> Some (wrap16 (pc + 2)) ->
   getNibble1 instruction = 0xE \/ destination instruction = Some 0) /\
  (reg st' !! 1%nat <> reg st !! 1%nat ->
   getNibble1 instruction = 0x5 \/ destination instruction = Some 1).
Proof.
  intros Hwf Hpc Hrun. split; intros Hne.
  - destruct (runInstruction_frame st instruction address pc st' 0 Hwf Hpc Hrun)
      as [H|[[H _]|[[_ H]|H]]].
    + rewrite H, (at_dispatch_pc st pc Hwf) in Hne. contradiction.
    + left. exact H.
    + discriminate H.
    + right. exact H.
  - destruct (runInstruction_frame st instruction address pc st' 1 Hwf Hpc Hrun)
      as [H|[[_ H]|[[H _]|H]]].
    + rewrite H, at_dispatch_other in Hne by lia. contradiction.
    + discriminate H.
    + left. exact H.
    + right. exact H.
Qed.

Lemma reserved_slots_witness :
  let st := Machine [0; 0; 1; 0; 0] false zero_RAM "" in
  let st' := Machine [2; 1; 1; 0; 0] false zero_RAM "" in
  runInstruction st 0x5230 0 = Ok st' /\
  (getNibble1 0x5230 = 0x5 \/ destination 0x5230 = Some 1).
Proof.
  generalize zero_RAM. intros ram. simpl.
  assert (Hwf : wf (Machine [0; 0; 1; 0; 0] false ram ""))
    by (split; [reflexivity|repeat constructor; unfold is_word; lia]).
  assert (Hrun : runInstruction (Machine [0; 0; 1; 0; 0] false ram "") 0x5230 0
                 = Ok (Machine [2; 1; 1; 0; 0] false ram ""))
    by (vm_compute; reflexivity).
  split; [exact Hrun|].
  refine (proj2 (reserved_slots _ 0x5230 0 0 _ Hwf _ Hrun) _);
    [reflexivity|discriminate].
Defined.

(** C7 as stated fails: LDV 1, 0x0007 is not a comparison, and it
    changes the flags register from 0 to 7. *)
Lemma reserved_slots_counterexample :
  let st := power_on zero_RAM in
  getNibble1 0xA100 <> 0x5 /\
  reg st !! 1%nat = Some 0 /\
  exists st', runInstruction st 0xA100 0x0007 = Ok st' /\
              reg st' !! 1%nat = Some 7.
Proof.
  generalize zero_RAM. intros ram. simpl.
  split; [discriminate|]. split; [reflexivity|].
  eexists. split; [vm_compute; reflexivity|reflexivity].
Qed.

(** ** Halting *)

Lemma default_halts st instruction address pc :
  wf st -> reg st !! 0%nat = Some pc ->
  implemented (getNibble1 instruction) = false ->
  runInstruction st instruction address = Ok (with_halt (at_dispatch st pc) true).
Proof.
  intros Hwf Hpc Himp.
  rewrite (runInstruction_eq st Hwf _ _ pc Hpc).
  apply dispatch_default, Himp.
Qed.

Lemma run_halted rom fuel st : halt st = true -> run rom fuel st = Ok st.
Proof. intros H. destruct fuel; simpl; rewrite H; reflexivity. Qed.

Lemma run_step rom fuel st :
  halt st = false -> run rom (S fuel) st = cycle rom st ≫= run rom fuel.
Proof. intros H. simpl. rewrite H. reflexivity. Qed.

(** More fuel does not change a run that ended. *)
Lemma run_mono rom n st r :
  run rom n st = r -> r <> OutOfFuel ->
  forall m, (n <= m)%nat -> run rom m st = r.
Proof.
  revert st r. induction n as [|n IH]; intros st r Hrun Hr m Hm.
  - simpl in Hrun. destruct (halt st) eqn:E; [|congruence].
    rewrite run_halted by exact E. exact Hrun.
  - destruct m as [|m]; [lia|].
    simpl in *. destruct (halt st); [exact Hrun|].
    destruct (cycle rom st) as [s| |]; simpl in *; try exact Hrun.
    apply IH; [exact Hrun|exact Hr|lia].
Qed.

(** C1, as the code has it: opcode 0x1 has no case of its own in the
    switch, so SUB is the default branch: the machine halts, the
    program counter has been advanced by 2, and no other register, nor
    the data store, nor the output, is changed; no difference is
    stored. *)
Theorem SUB_halts (st : machine) (instruction address pc : Z) :
  wf st ->
  getNibble1 instruction = 0x1 ->
  reg st !! 0%nat = Some pc ->
  exists st',
    runInstruction st instruction address = Ok st' /\
    halt st' = true /\
    reg st' !! 0%nat = Some (wrap16 (pc + 2)) /\
    (forall k, k <> 0%nat -> reg st' !! k = reg st !! k) /\
    RAM st' = RAM st /\ cout st' = cout st.
Proof.
  intros Hwf Hop Hpc. exists (with_halt (at_dispatch st pc) true). split_and!.
  - apply default_halts; [exact Hwf|exact Hpc|rewrite Hop; reflexivity].
  - reflexivity.
  - apply at_dispatch_pc, Hwf.
  - intros k Hk. apply at_dispatch_other, Hk.
  - reflexivity.
  - reflexivity.
Qed.

Lemma SUB_halts_witness :
  exists st', runInstruction (Machine [0; 0; 5; 3; 0] false zero_RAM "") 0x1234 0 = Ok st'
              /\ halt st' = true /\ reg st' !! 4%nat = Some 0.
Proof.
  generalize zero_RAM. intros ram.
  destruct (SUB_halts (Machine [0; 0; 5; 3; 0] false ram "") 0x1234 0 0)
    as (st' & Hrun & Hhalt & _ & Hframe & _).
  - split; [reflexivity|repeat constructor; unfold is_word; lia].
  - reflexivity.
  - reflexivity.
  - exists st'. split; [exact Hrun|]. split; [exact Hhalt|].
    rewrite Hframe by discriminate. reflexivity.
Defined.

(** C1 as stated fails: with 5 in register 2 and 3 in register 3,
    SUB 2 3 4 leaves register 4 at 0 instead of 5 - 3, and halts the
    machine. *)
Lemma SUB_counterexample :
  let st := Machine [0; 0; 5; 3; 0] false zero_RAM "" in
  reg st !! 2%nat = Some 5 /\ reg st !! 3%nat = Some 3 /\
  exists st', runInstruction st 0x1234 0 = Ok st' /\
              reg st' !! 4%nat = Some 0 /\
              reg st' !! 4%nat <> Some ((5 - 3) mod 65536) /\
              halt st' = true.
Proof.
  generalize zero_RAM. intros ram. simpl.
  split; [reflexivity|]. split; [reflexivity|].
  eexists. split; [vm_compute; reflexivity|].
  split; [reflexivity|]. split; [discriminate|reflexivity].
Qed.

(** C5: HLT, like every opcode without a case of its own in the switch
    (0x1 to 0x4, 0x8, 0x9, 0xB to 0xD and 0xF), sets the halt flag and
    changes nothing else: registers 1 to 4, the data store and the
    output are as before, and the program counter holds the increment
    the run loop's cycle applies to every instruction.  From a halted
    state the run loop returns at once, whatever the program store
    holds, and the program 0xF000, 0x0000 run from power-on ends after
    exactly one cycle with empty output. *)
Theorem HLT_halts (st : machine) (instruction address pc : Z)
    (rom : list Z) (fuel : nat) (ram : list Z) :
  wf st ->
  implemented (getNibble1 instruction) = false ->
  reg st !! 0%nat = Some pc ->
  let st' := with_halt (at_dispatch st pc) true in
  Forall (fun n1 => implemented n1 = false)
    [0x1; 0x2; 0x3; 0x4; 0x8; 0x9; 0xB; 0xC; 0xD; 0xF] /\
  runInstruction st instruction address = Ok st' /\
  halt st' = true /\
  reg st' !! 0%nat = Some (wrap16 (pc + 2)) /\
  (forall k, k <> 0%nat -> reg st' !! k = reg st !! k) /\
  RAM st' = RAM st /\ cout st' = cout st /\
  run rom fuel st' = Ok st' /\
  run (load [0xF000; 0x0000]) 0 (power_on ram) = OutOfFuel /\
  run (load [0xF000; 0x0000]) (S fuel) (power_on ram)
  = Ok (Machine [2; 0; 0; 0; 0] true ram "").
Proof.
  intros Hwf Himp Hpc st'. split_and!.
  - repeat constructor.
  - apply default_halts; assumption.
  - reflexivity.
  - apply at_dispatch_pc, Hwf.
  - intros k Hk. apply at_dispatch_other, Hk.
  - reflexivity.
  - reflexivity.
  - apply run_halted. reflexivity.
  - reflexivity.
  - rewrite run_step by reflexivity.
    assert (Hc : cycle (load [0xF000; 0x0000]) (power_on ram)
                 = Ok (Machine [2; 0; 0; 0; 0] true ram ""))
      by (vm_compute; reflexivity).
    rewrite Hc, ret_bind. apply run_halted. reflexivity.
Qed.

Lemma HLT_halts_witness :
  let st := Machine [18; 4; 28657; 46368; 9489] false zero_RAM "" in
  runInstruction st 0xFFFF 0xFFFF
  = Ok (Machine [20; 4; 28657; 46368; 9489] true zero_RAM "").
Proof.
  generalize zero_RAM. intros ram. simpl.
  refine (proj1 (proj2 (HLT_halts (Machine [18; 4; 28657; 46368; 9489] false ram "")
                          0xFFFF 0xFFFF 18 [] 0 ram _ _ _))).
  - split; [reflexivity|repeat constructor; unfold is_word; lia].
  - reflexivity.
  - reflexivity.
Defined.

(** ** Register selectors *)

Section selectors.
Variable st : machine.
Hypothesis Hwf : wf st.

Lemma get_reg_dec (i : Z) :
  0 <= i ->
  (i < NREG /\ exists v, get_reg st i = Ok v) \/
  (NREG <= i /\ get_reg st i = UB (reg_out_of_range i)).
Proof.
  intros Hi. destruct (Z.lt_ge_cases i NREG) as [Hlt|Hge].
  - left. split; [exact Hlt|].
    destruct (reg_lookup st Hwf i) as (v & Hv & _); [lia|].
    exists v. apply get_reg_Some, Hv.
  - right. split; [exact Hge|]. apply get_reg_None; assumption.
Qed.

Lemma set_reg_dec (i v : Z) :
  0 <= i ->
  (i < NREG /\ exists st', set_reg st i v = Ok st') \/
  (NREG <= i /\ set_reg st i v = UB (reg_out_of_range i)).
Proof.
  intros Hi. destruct (Z.lt_ge_cases i NREG) as [Hlt|Hge].
  - left. split; [exact Hlt|]. eexists. apply set_reg_in; [exact Hwf|lia].
  - right. split; [exact Hge|]. apply set_reg_None; assumption.
Qed.
End selectors.

(** What [dispatch] does with the fields it uses as subscripts of [reg]:
    it returns normally when all of them are below 5, and indexes past
    the end of [reg] with one of them otherwise. *)
Lemma dispatch_selectors st instruction address f :
  wf st -> reg st !! 1%nat = Some f -> is_word f ->
  let r := dispatch st (getNibble1 instruction) (getNibble2 instruction)
             (getNibble3 instruction) (getNibble4 instruction) address in
  (Forall (fun k => k < NREG) (register_operands instruction) /\
   exists st', r = Ok st') \/
  (exists k, k ∈ register_operands instruction /\ NREG <= k /\
             r = UB (reg_out_of_range k)).
Proof.
  intros Hwf Hf Wf r. subst r.
  pose proof (getNibble2_range instruction) as [R2 _].
  pose proof (getNibble3_range instruction) as [R3 _].
  pose proof (getNibble4_range instruction) as [R4 _].
  unfold register_operands.
  destruct (opcode_cases (getNibble1 instruction))
    as [->|[->|[->|[->|[->|[->|Hd]]]]]]; [unfold dispatch..|].
  - (* ADD *)
    destruct (get_reg_dec st Hwf _ R2) as [[L2 [a ->]]|[G2 ->]];
      [rewrite ret_bind|right; eexists; split_and!; [|exact G2|reflexivity]; (rewrite !elem_of_cons; auto 10)].
    destruct (get_reg_dec st Hwf _ R3) as [[L3 [b ->]]|[G3 ->]];
      [rewrite ret_bind|right; eexists; split_and!; [|exact G3|reflexivity]; (rewrite !elem_of_cons; auto 10)].
    destruct (set_reg_dec st Hwf _ (wrap16 (a + b)) R4) as [[L4 [s ->]]|[G4 ->]];
      [|right; eexists; split_and!; [|exact G4|reflexivity]; (rewrite !elem_of_cons; auto 10)].
    left. split; [repeat constructor; assumption|eauto].
  - (* CMP *)
    rewrite (CMP_eq st _ _ f Hwf Hf Wf).
    assert (Hwf2 : wf (at_compare st f))
      by (apply wf_insert; [exact Hwf|apply cleared_word, Wf]).
    destruct (get_reg_dec _ Hwf2 _ R2) as [[L2 [a ->]]|[G2 ->]];
      [rewrite ret_bind|right; eexists; split_and!; [|exact G2|reflexivity]; (rewrite !elem_of_cons; auto 10)].
    destruct (get_reg_dec _ Hwf2 _ R3) as [[L3 [b ->]]|[G3 ->]];
      [rewrite ret_bind|right; eexists; split_and!; [|exact G3|reflexivity]; (rewrite !elem_of_cons; auto 10)].
    left. split; [repeat constructor; assumption|eauto].
  - (* CPY *)
    destruct (get_reg_dec st Hwf _ R2) as [[L2 [a ->]]|[G2 ->]];
      [rewrite ret_bind|right; eexists; split_and!; [|exact G2|reflexivity]; (rewrite !elem_of_cons; auto 10)].
    destruct (set_reg_dec st Hwf _ a R3) as [[L3 [s ->]]|[G3 ->]];
      [|right; eexists; split_and!; [|exact G3|reflexivity]; (rewrite !elem_of_cons; auto 10)].
    left. split; [repeat constructor; assumption|eauto].
  - (* OUT *)
    destruct (get_reg_dec st Hwf _ R2) as [[L2 [a ->]]|[G2 ->]];
      [rewrite ret_bind|right; eexists; split_and!; [|exact G2|reflexivity]; (rewrite !elem_of_cons; auto 10)].
    left. split; [repeat constructor; assumption|eauto].
  - (* LDV *)
    destruct (set_reg_dec st Hwf _ address R2) as [[L2 [s ->]]|[G2 ->]];
      [|right; eexists; split_and!; [|exact G2|reflexivity]; (rewrite !elem_of_cons; auto 10)].
    left. split; [repeat constructor; assumption|eauto].
  - (* J *)
    rewrite (J_eq st _ _ _ f Hwf Hf (getNibble3_range instruction)).
    left. split; [constructor|eauto].
  - (* default *)
    rewrite (dispatch_default _ _ _ _ _ _ Hd). left. split; [|eauto].
    destruct (getNibble1 instruction) as [|p|p]; [discriminate Hd|..|constructor].
    repeat (destruct p as [p|p|]; try constructor; try discriminate Hd).
Qed.

(** C8, as the code has it: [reg] is indexed without any check and no
    fault is ever raised.  When every field the opcode uses as a
    register index is below 5 the instruction executes normally; when
    one of them is 5 or more, the instruction indexes past the end of
    the five-slot array with it, which has no defined behaviour.  J,
    HLT and the undefined opcodes use no field as a register index and
    execute normally whatever their fields hold. *)
Theorem register_selectors_unchecked (st : machine) (instruction address : Z) :
  wf st ->
  (Forall (fun k => k < NREG) (register_operands instruction) ->
   exists st', runInstruction st instruction address = Ok st') /\
  ((exists k, k ∈ register_operands instruction /\ NREG <= k) ->
   exists k, k ∈ register_operands instruction /\ NREG <= k /\
             runInstruction st instruction address = UB (reg_out_of_range k)) /\
  (getNibble1 instruction = 0xE \/ implemented (getNibble1 instruction) = false ->
   register_operands instruction = [] /\
   exists st', runInstruction st instruction address = Ok st').
Proof.
  intros Hwf.
  destruct (pc_exists st Hwf) as (pc & Hpc & _).
  destruct (reg_lookup st Hwf 1) as (f & Hf & Wf); [unfold NREG; lia|].
  pose proof (wf_at_dispatch st Hwf pc) as Hwf1.
  assert (Hf1 : reg (at_dispatch st pc) !! 1%nat = Some f)
    by (rewrite at_dispatch_other by lia; exact Hf).
  rewrite (runInstruction_eq st Hwf _ _ pc Hpc).
  pose proof (dispatch_selectors _ instruction address f Hwf1 Hf1 Wf) as Hsel.
  simpl in Hsel.
  assert (Hall : Forall (fun k => k < NREG) (register_operands instruction) ->
                 exists st', dispatch (at_dispatch st pc) (getNibble1 instruction)
                               (getNibble2 instruction) (getNibble3 instruction)
                               (getNibble4 instruction) address = Ok st').
  { intros Hlt. destruct Hsel as [[_ Hok]|(k & Hin & Hge & _)]; [exact Hok|].
    rewrite Forall_forall in Hlt. specialize (Hlt k Hin). lia. }
  split_and!.
  - exact Hall.
  - intros (k0 & Hin0 & Hge0).
    destruct Hsel as [[Hlt _]|Hub]; [|exact Hub].
    rewrite Forall_forall in Hlt. specialize (Hlt k0 Hin0). lia.
  - intros Hop.
    assert (Hnil : register_operands instruction = []).
    { unfold register_operands. destruct Hop as [->|Hd]; [reflexivity|].
      destruct (getNibble1 instruction) as [|p|p]; [discriminate Hd|..|reflexivity].
      repeat (destruct p as [p|p|]; try reflexivity; try discriminate Hd). }
    split; [exact Hnil|]. apply Hall. rewrite Hnil. constructor.
Qed.

Lemma register_selectors_unchecked_witness :
  exists k, k ∈ register_operands 0x0752 /\ NREG <= k /\
    runInstruction (power_on zero_RAM) 0x0752 0 = UB (reg_out_of_range k).
Proof.
  generalize zero_RAM. intros ram.
  refine (proj1 (proj2 (register_selectors_unchecked (power_on ram) 0x0752 0 _)) _).
  - split; [reflexivity|repeat constructor; unfold is_word; lia].
  - exists 7. split; [|unfold NREG; lia].
    change (register_operands 0x0752) with [7; 5; 2]. (rewrite !elem_of_cons; auto 10).
Defined.

(** C8 as stated fails: ADD 7 5 2 (the word 0x0752) uses field 2 = 7 as
    a register index.  Executing it at power-on raises no fault and does
    not refrain from register accesses: the program counter is first
    written (0 becomes 2), and then [reg[7]] is read as it stands, past
    the end of the five-slot array. *)
Lemma register_selectors_counterexample :
  let st := power_on zero_RAM in
  getNibble1 0x0752 = 0x0 /\
  getNibble2 0x0752 = 7 /\
  7 ∈ register_operands 0x0752 /\
  NREG <= 7 /\
  reg st !! 0%nat = Some 0 /\
  exists st1,
    advance_pc st = Ok st1 /\
    reg st1 !! 0%nat = Some 2 /\
    get_reg st1 7 = UB (reg_out_of_range 7) /\
    runInstruction st 0x0752 0 = UB (reg_out_of_range 7).
Proof.
  generalize zero_RAM. intros ram. simpl.
  split; [reflexivity|]. split; [reflexivity|].
  split; [change (register_operands 0x0752) with [7; 5; 2];
          rewrite !elem_of_cons; auto|].
  split; [unfold NREG; lia|]. split; [reflexivity|].
  eexists. split; [vm_compute; reflexivity|].
  split; [reflexivity|]. split; reflexivity.
Qed.

(** ** Data store *)

Section data_store.
Variable ram : list Z.

Local Abbreviation put := (put_RAM ram).

Lemma fmap_bind {A B C : Type} (g : A -> B) (m : outcome A) (k : B -> outcome C) :
  (g <$> m) ≫= k = m ≫= (fun a => k (g a)).
Proof. destruct m; reflexivity. Qed.

Lemma bind_fmap {A B C : Type} (g : B -> C) (m : outcome A) (k : A -> outcome B) :
  g <$> (m ≫= k) = m ≫= (fun a => g <$> k a).
Proof. destruct m; reflexivity. Qed.

Lemma bind_ext {A B : Type} (m : outcome A) (k k' : A -> outcome B) :
  (forall a, k a = k' a) -> m ≫= k = m ≫= k'.
Proof. intros H. destruct m; simpl; [apply H|reflexivity..]. Qed.

Lemma clear_flag_RAM st b : clear_flag (put st) b = put <$> clear_flag st b.
Proof.
  unfold clear_flag. rewrite bind_fmap. apply bind_ext. intros f.
  apply set_reg_with_RAM.
Qed.

Lemma raise_flag_RAM st b : raise_flag (put st) b = put <$> raise_flag st b.
Proof.
  unfold raise_flag. rewrite bind_fmap. apply bind_ext. intros f.
  apply set_reg_with_RAM.
Qed.

Lemma CMP_RAM st n2 n3 : CMP (put st) n2 n3 = put <$> CMP st n2 n3.
Proof.
  unfold CMP.
  rewrite clear_flag_RAM, fmap_bind, bind_fmap. apply bind_ext. intros s1.
  rewrite clear_flag_RAM, fmap_bind, bind_fmap. apply bind_ext. intros s2.
  rewrite clear_flag_RAM, fmap_bind, bind_fmap. apply bind_ext. intros s3.
  change (get_reg (put s3) n2) with (get_reg s3 n2).
  change (get_reg (put s3) n3) with (get_reg s3 n3).
  rewrite bind_fmap. apply bind_ext. intros a.
  rewrite bind_fmap. apply bind_ext. intros b.
  destruct (a >? b); [apply raise_flag_RAM|].
  destruct (a =? b); [apply raise_flag_RAM|].
  destruct (a <? b); [apply raise_flag_RAM|reflexivity].
Qed.

Lemma J_RAM st n2 n3 address : J (put st) n2 n3 address = put <$> J st n2 n3 address.
Proof.
  unfold J. change (get_reg (put st) 1) with (get_reg st 1).
  destruct (n2 =? 0).
  { rewrite bind_fmap. apply bind_ext. intros f.
    destruct (getbit f n3 =? 0); [apply set_reg_with_RAM|reflexivity]. }
  destruct (n2 =? 1).
  { rewrite bind_fmap. apply bind_ext. intros f.
    destruct (getbit f n3 =? 0); [reflexivity|apply set_reg_with_RAM]. }
  apply set_reg_with_RAM.
Qed.

Lemma dispatch_RAM st n1 n2 n3 n4 address :
  dispatch (put st) n1 n2 n3 n4 address = put <$> dispatch st n1 n2 n3 n4 address.
Proof.
  destruct (opcode_cases n1) as [->|[->|[->|[->|[->|[->|Hd]]]]]];
    [unfold dispatch..|].
  - change (get_reg (put st) n2) with (get_reg st n2).
    change (get_reg (put st) n3) with (get_reg st n3).
    rewrite bind_fmap. apply bind_ext. intros a.
    rewrite bind_fmap. apply bind_ext. intros b.
    apply set_reg_with_RAM.
  - apply CMP_RAM.
  - change (get_reg (put st) n2) with (get_reg st n2).
    rewrite bind_fmap. apply bind_ext. intros a. apply set_reg_with_RAM.
  - change (get_reg (put st) n2) with (get_reg st n2).
    rewrite bind_fmap. apply bind_ext. intros a. reflexivity.
  - apply set_reg_with_RAM.
  - apply J_RAM.
  - rewrite !dispatch_default by exact Hd. reflexivity.
Qed.

Lemma advance_pc_RAM st : advance_pc (put st) = put <$> advance_pc st.
Proof.
  unfold advance_pc. change (get_reg (put st) 0) with (get_reg st 0).
  rewrite bind_fmap. apply bind_ext. intros pc. apply set_reg_with_RAM.
Qed.

Lemma runInstruction_RAM st instruction address :
  runInstruction (put st) instruction address
  = put <$> runInstruction st instruction address.
Proof.
  unfold runInstruction.
  rewrite advance_pc_RAM, fmap_bind, bind_fmap. apply bind_ext. intros s.
  apply dispatch_RAM.
Qed.

Lemma cycle_RAM rom st : cycle rom (put st) = put <$> cycle rom st.
Proof.
  unfold cycle. change (get_reg (put st) 0) with (get_reg st 0).
  rewrite bind_fmap. apply bind_ext. intros pc.
  rewrite bind_fmap. apply bind_ext. intros instruction.
  rewrite bind_fmap. apply bind_ext. intros address.
  apply runInstruction_RAM.
Qed.

Lemma run_RAM rom fuel st : run rom fuel (put st) = put <$> run rom fuel st.
Proof.
  revert st. induction fuel as [|fuel IH]; intros st; simpl.
  - destruct (halt st); reflexivity.
  - destruct (halt st); [reflexivity|].
    rewrite cycle_RAM, fmap_bind, bind_fmap. apply bind_ext. intros s. apply IH.
Qed.
End data_store.

Lemma with_RAM_id st : with_RAM st (RAM st) = st.
Proof. destruct st; reflexivity. Qed.

(** A computation that commutes with every replacement of the data
    store returns the data store it was given. *)
Lemma RAM_kept (f : machine -> outcome machine) (st : machine) :
  (forall ram, f (with_RAM st ram) = (fun s => with_RAM s ram) <$> f st) ->
  RAM <$> f st = (fun _ => RAM st) <$> f st.
Proof.
  intros H. specialize (H (RAM st)). rewrite with_RAM_id in H.
  destruct (f st) as [s| |]; simpl in *; [|reflexivity..].
  injection H as H. rewrite H at 1. reflexivity.
Qed.

(** C10: no instruction reads or writes the data store.  Executing an
    instruction, and running the loop for any number of cycles, from a
    state whose data store was replaced by any other gives the same
    outcome with the data store replaced in the same way, and whenever
    a state is returned its data store is the one of the starting
    state. *)
Theorem RAM_untouched (st : machine) (instruction address : Z)
    (ram rom : list Z) (fuel : nat) :
  runInstruction (with_RAM st ram) instruction address
  = (fun s => with_RAM s ram) <$> runInstruction st instruction address /\
  RAM <$> runInstruction st instruction address
  = (fun _ => RAM st) <$> runInstruction st instruction address /\
  run rom fuel (with_RAM st ram) = (fun s => with_RAM s ram) <$> run rom fuel st /\
  RAM <$> run rom fuel st = (fun _ => RAM st) <$> run rom fuel st.
Proof.
  split_and!.
  - apply runInstruction_RAM.
  - apply (RAM_kept (fun s => runInstruction s instruction address)).
    intros r. apply runInstruction_RAM.
  - apply run_RAM.
  - apply (RAM_kept (run rom fuel)). intros r. apply run_RAM.
Qed.

(** ** The Fibonacci program *)

Lemma run_out_of_fuel rom n st :
  run rom n st = OutOfFuel -> forall m, (m <= n)%nat -> run rom m st = OutOfFuel.
Proof.
  intros Hn m Hm. destruct (run rom m st) as [s|u|] eqn:E; [..|reflexivity].
  - rewrite (run_mono rom m st (Ok s) E) in Hn by (discriminate || exact Hm).
    discriminate Hn.
  - rewrite (run_mono rom m st (UB u) E) in Hn by (discriminate || exact Hm).
    discriminate Hn.
Qed.

(** C2, as the code has it: run from power-on, the program prints the
    Fibonacci numbers fib 2 = 1, fib 3 = 2, 3, 5, 8, 13, 21, ... up to
    fib 24 = 46368, each once and one per line in unsigned decimal (so
    the output starts 1, 2, 3, 5 and holds a single 1).  The next sum,
    fib 25 = 75025, wraps to 9489, which is below 46368: after 140
    cycles the CMP at address 14 has raised the less-than bit instead of
    the greater-than bit, the jump at address 16 is not taken, the word
    fetched at address 18 is the sentinel 0xFFFF, and the machine halts
    after exactly 142 cycles.  The trace is the same on every run,
    whatever the data store holds and however much fuel is given. *)
Theorem fibonacci_output (ram : list Z) :
  let printed := map (fun k => fib k mod 65536) (seq 2 23) in
  let final := Machine [20; 4; 28657; 46368; 9489] true ram (lines printed) in
  printed = [1; 2; 3; 5; 8; 13; 21; 34; 55; 89; 144; 233; 377; 610; 987;
             1597; 2584; 4181; 6765; 10946; 17711; 28657; 46368] /\
  fib 25 mod 65536 = 9489 /\
  main 142 ram = Ok final /\
  (forall fuel, (142 <= fuel)%nat -> main fuel ram = Ok final) /\
  (forall fuel, (fuel < 142)%nat -> main fuel ram = OutOfFuel) /\
  cycles (load fibonacci_code) 140 (power_on ram)
  = Ok (Machine [16; 4; 28657; 46368; 9489] false ram (lines printed)) /\
  cycles (load fibonacci_code) 141 (power_on ram)
  = Ok (Machine [18; 4; 28657; 46368; 9489] false ram (lines printed)) /\
  load fibonacci_code !! 18%nat = Some 0xFFFF.
Proof.
  intros printed final. unfold main.
  assert (H142 : run (load fibonacci_code) 142 (power_on ram) = Ok final)
    by (vm_compute; reflexivity).
  assert (H141 : run (load fibonacci_code) 141 (power_on ram) = OutOfFuel)
    by (vm_compute; reflexivity).
  assert (H140 : cycles (load fibonacci_code) 140 (power_on ram)
                 = Ok (Machine [16; 4; 28657; 46368; 9489] false ram (lines printed)))
    by (vm_compute; reflexivity).
  assert (H141c : cycles (load fibonacci_code) 141 (power_on ram)
                  = Ok (Machine [18; 4; 28657; 46368; 9489] false ram (lines printed)))
    by (vm_compute; reflexivity).
  assert (H18 : load fibonacci_code !! 18%nat = Some 0xFFFF)
    by (vm_compute; reflexivity).
  assert (Hp : printed = [1; 2; 3; 5; 8; 13; 21; 34; 55; 89; 144; 233; 377; 610;
                          987; 1597; 2584; 4181; 6765; 10946; 17711; 28657; 46368])
    by (vm_compute; reflexivity).
  assert (H25 : fib 25 mod 65536 = 9489) by (vm_compute; reflexivity).
  revert H142 H141 H140 H141c H18.
  generalize (load fibonacci_code) (power_on ram). intros rom st0.
  intros H142 H141 H140 H141c H18.
  split; [exact Hp|]. split; [exact H25|]. split; [exact H142|].
  split; [intros fuel Hfuel; exact (run_mono rom 142 st0 (Ok final) H142 ltac:(discriminate) fuel Hfuel)|].
  split; [intros fuel Hfuel; apply (run_out_of_fuel rom 141 st0 H141); lia|].
  split; [exact H140|]. split; [exact H141c|exact H18].
Qed.

Lemma fibonacci_output_witness :
  exists st', main 1000 zero_RAM = Ok st' /\
              reg st' = [20; 4; 28657; 46368; 9489] /\ halt st' = true.
Proof.
  generalize zero_RAM. intros ram.
  exists (Machine [20; 4; 28657; 46368; 9489] true ram
            (lines (map (fun k => fib k mod 65536) (seq 2 23)))).
  split.
  - exact (proj1 (proj2 (proj2 (proj2 (fibonacci_output ram)))) 1000%nat ltac:(lia)).
  - split; reflexivity.
Defined.

(** C2 as stated fails: the output does not start 1, 1, 2, 3, 5, 8, 13,
    21; the number 1 is printed once and the output starts 1, 2, 3, 5,
    8, 13, 21. *)
Lemma fibonacci_output_counterexample :
  exists st', main 142 zero_RAM = Ok st' /\
              String.prefix (lines [1; 1; 2; 3; 5; 8; 13; 21]) (cout st') = false /\
              String.prefix (lines [1; 2; 3; 5; 8; 13; 21]) (cout st') = true.
Proof.
  generalize zero_RAM. intros ram.
  eexists. split; [vm_compute; reflexivity|].
  split; vm_compute; reflexivity.
Qed.

(** ** Bounds of the program store *)

(** C6 on the code: the program store has 0xFFFF = 65535 words, so the
    16-bit address 65535 is not an index into it.  The two-word program
    J 2 0, 0xFFFE sets the program counter to 0xFFFE; the next cycle
    fetches the words at 0xFFFE and 0xFFFF, and the second fetch is past
    the end of the array. *)
Theorem ROM_fetch_out_of_bounds (ram : list Z) :
  ROM_SIZE = 65535 /\
  Z.of_nat (length (load [0xE200; 0xFFFE])) = 65535 /\
  is_word 65535 /\
  load [0xE200; 0xFFFE] !! Z.to_nat 65535 = None /\
  cycles (load [0xE200; 0xFFFE]) 1 (power_on ram)
  = Ok (Machine [0xFFFE; 0; 0; 0; 0] false ram "") /\
  cycle (load [0xE200; 0xFFFE]) (Machine [0xFFFE; 0; 0; 0; 0] false ram "")
  = UB (ROM_out_of_range 65535) /\
  run (load [0xE200; 0xFFFE]) 2 (power_on ram) = UB (ROM_out_of_range 65535).
Proof.
  split_and!; try (vm_compute; reflexivity).
  unfold is_word. lia.
Qed.

(** ** Decoder round trips *)

Lemma getNibble_div_mod w :
  getNibble1 w = w / 4096 /\
  getNibble2 w = (w / 256) mod 16 /\
  getNibble3 w = (w / 16) mod 16 /\
  getNibble4 w = w mod 16.
Proof.
  unfold getNibble1, getNibble2, getNibble3, getNibble4.
  change 0x000F with (Z.ones 4).
  rewrite !Z.land_ones, !Z.shiftr_div_pow2 by lia.
  change (2 ^ 12) with 4096. change (2 ^ 8) with 256.
  change (2 ^ 4) with 16. repeat split; reflexivity.
Qed.

(** X1: the four nibble extractors split a 16-bit word without loss:
    every word is the encoding of its own nibbles, each of which lies
    in 0..15, and the nibbles of an encoded word are the ones it was
    built from. *)
Theorem decode_encode (w n1 n2 n3 n4 : Z) :
  is_word w ->
  is_nibble n1 -> is_nibble n2 -> is_nibble n3 -> is_nibble n4 ->
  (is_nibble (getNibble1 w) /\ is_nibble (getNibble2 w) /\
   is_nibble (getNibble3 w) /\ is_nibble (getNibble4 w) /\
   encode (getNibble1 w) (getNibble2 w) (getNibble3 w) (getNibble4 w) = w) /\
  (is_word (encode n1 n2 n3 n4) /\
   getNibble1 (encode n1 n2 n3 n4) = n1 /\
   getNibble2 (encode n1 n2 n3 n4) = n2 /\
   getNibble3 (encode n1 n2 n3 n4) = n3 /\
   getNibble4 (encode n1 n2 n3 n4) = n4).
Proof.
  unfold is_word, is_nibble, encode. intros Hw H1 H2 H3 H4.
  destruct (getNibble_div_mod w) as (-> & -> & -> & ->).
  destruct (getNibble_div_mod (4096 * n1 + 256 * n2 + 16 * n3 + n4))
    as (-> & -> & -> & ->).
  split; repeat split; Z.div_mod_to_equations; lia.
Qed.

Lemma decode_encode_witness :
  encode (getNibble1 0xE120) (getNibble2 0xE120) (getNibble3 0xE120)
    (getNibble4 0xE120) = 0xE120 /\
  getNibble3 (encode 0xE 1 2 0) = 2.
Proof.
  assert (N : forall n, 0 <= n -> n < 16 -> is_nibble n) by (intros n ? ?; split; assumption).
  pose proof (decode_encode 0xE120 0xE 1 2 0
                ltac:(unfold is_word; lia)
                ltac:(apply N; lia) ltac:(apply N; lia)
                ltac:(apply N; lia) ltac:(apply N; lia)) as [Hd He].
  split.
  - exact (proj2 (proj2 (proj2 (proj2 Hd)))).
  - exact (proj1 (proj2 (proj2 (proj2 He)))).
Defined.

(** ** Flag accessors *)

Lemma getbit_value x k :
  0 <= k < 16 -> getbit x k = if Z.testbit x k then 2 ^ k else 0.
Proof.
  intros Hk. unfold getbit. rewrite mask_pow2 by exact Hk.
  apply land_pow2. lia.
Qed.

(** X2: [setbit] and [getbit] on bit positions 0..15.  [getbit] returns
    the masked bit in place, [2 ^ k] or 0, not 1 or 0.  After
    [setbit x k b] the word is still a 16-bit value, reading bit [k]
    gives [2 ^ k] if [b] and 0 otherwise, and reading any other bit
    gives what it gave on [x]. *)
Theorem setbit_getbit (x k j : Z) (b : bool) :
  0 <= k < 16 -> 0 <= j < 16 ->
  is_word (setbit x k b) /\
  getbit x j = (if Z.testbit x j then 2 ^ j else 0) /\
  getbit (setbit x k b) j =
  (if j =? k then (if b then 2 ^ k else 0) else getbit x j).
Proof.
  intros Hk Hj. split; [apply setbit_word|]. split; [apply getbit_value, Hj|].
  rewrite !getbit_value, testbit_setbit by assumption.
  replace (j <? 16) with true by (symmetry; apply Z.ltb_lt; lia).
  simpl. destruct (Z.eqb_spec j k) as [->|Hne]; reflexivity.
Qed.

Lemma setbit_getbit_witness :
  getbit (setbit 0xFFF0 2 true) 2 = 4 /\ getbit (setbit 0xFFF0 2 true) 4 = 16.
Proof.
  split.
  - exact (proj2 (proj2 (setbit_getbit 0xFFF0 2 2 true ltac:(lia) ltac:(lia)))).
  - exact (proj2 (proj2 (setbit_getbit 0xFFF0 2 4 true ltac:(lia) ltac:(lia)))).
Defined.

(** ** Invariants of the execution engine *)

Lemma get_reg_word st i v : wf st -> get_reg st i = Ok v -> is_word v.
Proof.
  intros [_ Hall] H. apply get_reg_Ok in H.
  rewrite Forall_lookup in Hall. eauto.
Qed.

Lemma set_reg_wf st i v st' :
  wf st -> is_word v -> set_reg st i v = Ok st' -> wf st'.
Proof.
  intros Hwf Hv H. apply set_reg_Ok in H. subst st'.
  apply wf_insert; assumption.
Qed.

Lemma dispatch_wf st n1 n2 n3 n4 address st' :
  wf st -> is_word address ->
  dispatch st n1 n2 n3 n4 address = Ok st' -> wf st'.
Proof.
  intros Hwf Ha H.
  destruct (reg_lookup st Hwf 1) as (f & Hf & Wf); [unfold NREG; lia|].
  destruct (opcode_cases n1) as [->|[->|[->|[->|[->|[->|Hd]]]]]];
    [unfold dispatch in H..|].
  - apply bind_Ok in H as (a & _ & H). apply bind_Ok in H as (b & _ & H).
    exact (set_reg_wf _ _ _ _ Hwf (wrap16_word _) H).
  - rewrite (CMP_eq st _ _ f Hwf Hf Wf) in H.
    apply bind_Ok in H as (a & _ & H). apply bind_Ok in H as (b & _ & H).
    injection H as <-. apply wf_insert; [exact Hwf|apply wrap16_word].
  - apply bind_Ok in H as (a & Hget & H).
    exact (set_reg_wf _ _ _ _ Hwf (get_reg_word _ _ _ Hwf Hget) H).
  - apply bind_Ok in H as (a & _ & H). injection H as <-. exact Hwf.
  - exact (set_reg_wf _ _ _ _ Hwf Ha H).
  - unfold J in H.
    destruct (n2 =? 0).
    { apply bind_Ok in H as (g & _ & H).
      destruct (getbit g n3 =? 0);
        [exact (set_reg_wf _ _ _ _ Hwf Ha H)|injection H as <-; exact Hwf]. }
    destruct (n2 =? 1).
    { apply bind_Ok in H as (g & _ & H).
      destruct (getbit g n3 =? 0);
        [injection H as <-; exact Hwf|exact (set_reg_wf _ _ _ _ Hwf Ha H)]. }
    exact (set_reg_wf _ _ _ _ Hwf Ha H).
  - rewrite (dispatch_default _ _ _ _ _ _ Hd) in H. injection H as <-. exact Hwf.
Qed.

Lemma runInstruction_wf st instruction address st' :
  wf st -> is_word address ->
  runInstruction st instruction address = Ok st' -> wf st'.
Proof.
  intros Hwf Ha H. destruct (pc_exists st Hwf) as (pc & Hpc & _).
  rewrite (runInstruction_eq st Hwf _ _ pc Hpc) in H.
  exact (dispatch_wf _ _ _ _ _ _ _ (wf_at_dispatch st Hwf pc) Ha H).
Qed.

Lemma read_ROM_word rom i v :
  Forall is_word rom -> read_ROM rom i = Ok v -> is_word v.
Proof.
  intros Hall H. unfold read_ROM in H.
  destruct (rom !! Z.to_nat i) as [w|] eqn:E; [|discriminate].
  injection H as <-. rewrite Forall_lookup in Hall. eauto.
Qed.

Lemma cycle_wf rom st st' :
  Forall is_word rom -> wf st -> cycle rom st = Ok st' -> wf st'.
Proof.
  intros Hrom Hwf H. unfold cycle in H.
  apply bind_Ok in H as (pc & _ & H).
  apply bind_Ok in H as (i & _ & H).
  apply bind_Ok in H as (a & Ha & H).
  exact (runInstruction_wf _ _ _ _ Hwf (read_ROM_word _ _ _ Hrom Ha) H).
Qed.

(** X3: the register file keeps its shape.  Over a program store of
    16-bit words, every state the run loop returns from a state with
    five registers holding 16-bit values again has five registers
    holding 16-bit values, and so has the state after any single
    instruction whose literal is a 16-bit word. *)
Theorem registers_stay_words (rom : list Z) (fuel : nat) (st st' : machine)
    (instruction address : Z) :
  wf st ->
  Forall is_word rom ->
  (run rom fuel st = Ok st' -> wf st') /\
  (is_word address -> runInstruction st instruction address = Ok st' -> wf st').
Proof.
  intros Hwf Hrom. split; [|intros Ha; apply runInstruction_wf; assumption].
  revert st Hwf. induction fuel as [|fuel IH]; intros st Hwf H; simpl in H.
  - destruct (halt st); [injection H as <-; exact Hwf|discriminate].
  - destruct (halt st); [injection H as <-; exact Hwf|].
    apply bind_Ok in H as (s & Hc & H).
    exact (IH s (cycle_wf _ _ _ Hrom Hwf Hc) H).
Qed.

Lemma registers_stay_words_witness :
  wf (Machine [4; 0; 65535; 65535; 0] false zero_RAM "") /\
  wf (Machine [6; 0; 65535; 65535; 65534] false zero_RAM "").
Proof.
  generalize zero_RAM. intros ram.
  assert (Hwf : wf (Machine [4; 0; 65535; 65535; 0] false ram ""))
    by (split; [reflexivity|repeat constructor; unfold is_word; lia]).
  split; [exact Hwf|].
  refine (proj2 (registers_stay_words [0x0234; 0] 0 _ _ 0x0234 0 Hwf _) _ _).
  - repeat constructor; unfold is_word; lia.
  - unfold is_word; lia.
  - reflexivity.
Defined.

(** ** The halt flag *)

Lemma clear_flag_keeps st b st' :
  clear_flag st b = Ok st' -> halt st' = halt st /\ cout st' = cout st.
Proof.
  unfold clear_flag. intros H. apply bind_Ok in H as (f & _ & H).
  apply (set_reg_frame _ _ _ _ 0) in H as (_ & _ & Hh & _ & Hc). tauto.
Qed.

Lemma raise_flag_keeps st b st' :
  raise_flag st b = Ok st' -> halt st' = halt st /\ cout st' = cout st.
Proof.
  unfold raise_flag. intros H. apply bind_Ok in H as (f & _ & H).
  apply (set_reg_frame _ _ _ _ 0) in H as (_ & _ & Hh & _ & Hc). tauto.
Qed.

Lemma set_reg_keeps st i v st' :
  set_reg st i v = Ok st' -> halt st' = halt st /\ cout st' = cout st.
Proof.
  intros H. apply (set_reg_frame _ _ _ _ 0) in H as (_ & _ & Hh & _ & Hc). tauto.
Qed.

Lemma CMP_keeps st n2 n3 st' :
  CMP st n2 n3 = Ok st' -> halt st' = halt st /\ cout st' = cout st.
Proof.
  unfold CMP. intros H.
  apply bind_Ok in H as (s1 & H1 & H). apply clear_flag_keeps in H1 as [<- <-].
  apply bind_Ok in H as (s2 & H2 & H). apply clear_flag_keeps in H2 as [<- <-].
  apply bind_Ok in H as (s3 & H3 & H). apply clear_flag_keeps in H3 as [<- <-].
  apply bind_Ok in H as (a & _ & H). apply bind_Ok in H as (b & _ & H).
  destruct (a >? b); [exact (raise_flag_keeps _ _ _ H)|].
  destruct (a =? b); [exact (raise_flag_keeps _ _ _ H)|].
  destruct (a <? b); [exact (raise_flag_keeps _ _ _ H)|].
  injection H as <-. tauto.
Qed.

Lemma J_keeps st n2 n3 address st' :
  J st n2 n3 address = Ok st' -> halt st' = halt st /\ cout st' = cout st.
Proof.
  unfold J. intros H.
  destruct (n2 =? 0).
  { apply bind_Ok in H as (f & _ & H).
    destruct (getbit f n3 =? 0);
      [exact (set_reg_keeps _ _ _ _ H)|injection H as <-; tauto]. }
  destruct (n2 =? 1).
  { apply bind_Ok in H as (f & _ & H).
    destruct (getbit f n3 =? 0);
      [injection H as <-; tauto|exact (set_reg_keeps _ _ _ _ H)]. }
  exact (set_reg_keeps _ _ _ _ H).
Qed.

(** X4: the halt flag is never cleared, and it is set by exactly the
    opcodes without a case of their own.  After any instruction that
    returns, [halt] is its old value or-ed with "the opcode is not one
    of ADD, CMP, CPY, OUT, LDV, J"; so the state the run loop returns
    is always a halted one. *)
Theorem halt_flag (st st' : machine) (instruction address : Z)
    (rom : list Z) (fuel : nat) :
  (runInstruction st instruction address = Ok st' ->
   halt st' = halt st || negb (implemented (getNibble1 instruction))) /\
  (run rom fuel st = Ok st' -> halt st' = true).
Proof.
  split.
  - unfold runInstruction, advance_pc. intros H.
    apply bind_Ok in H as (s & Hs & H).
    apply bind_Ok in Hs as (pc & _ & Hs).
    apply set_reg_keeps in Hs as [<- _].
    destruct (opcode_cases (getNibble1 instruction))
      as [E|[E|[E|[E|[E|[E|Hd]]]]]]; [rewrite E in *; unfold dispatch in H..|].
    + apply bind_Ok in H as (a & _ & H). apply bind_Ok in H as (b & _ & H).
      apply set_reg_keeps in H as [-> _]. symmetry. apply orb_false_r.
    + apply CMP_keeps in H as [-> _]. symmetry. apply orb_false_r.
    + apply bind_Ok in H as (a & _ & H).
      apply set_reg_keeps in H as [-> _]. symmetry. apply orb_false_r.
    + apply bind_Ok in H as (a & _ & H). injection H as <-.
      symmetry. apply orb_false_r.
    + apply set_reg_keeps in H as [-> _]. symmetry. apply orb_false_r.
    + apply J_keeps in H as [-> _]. symmetry. apply orb_false_r.
    + rewrite (dispatch_default _ _ _ _ _ _ Hd) in H. injection H as <-.
      rewrite Hd. simpl. symmetry. apply orb_true_r.
  - revert st. induction fuel as [|fuel IH]; intros st H; simpl in H.
    + destruct (halt st) eqn:E; [injection H as <-; exact E|discriminate].
    + destruct (halt st) eqn:E; [injection H as <-; exact E|].
      apply bind_Ok in H as (s & _ & H). exact (IH s H).
Qed.

Lemma halt_flag_witness :
  halt (Machine [2; 0; 0; 0; 0] true zero_RAM "") = false || negb (implemented (getNibble1 0xB000)).
Proof.
  generalize zero_RAM. intros ram.
  refine (proj1 (halt_flag (power_on ram) _ 0xB000 0 [] 0) _).
  reflexivity.
Defined.

(** ** Output *)

Lemma append_assoc (s1 s2 s3 : string) : (s1 +:+ s2) +:+ s3 = s1 +:+ (s2 +:+ s3).
Proof.
  induction s1 as [|c s1 IH]; [reflexivity|].
  change (String c ((s1 +:+ s2) +:+ s3) = String c (s1 +:+ (s2 +:+ s3))).
  f_equal. exact IH.
Qed.

Lemma append_empty_r (s : string) : s +:+ "" = s.
Proof.
  induction s as [|c s IH]; [reflexivity|].
  change (String c (s +:+ "") = String c s). f_equal. exact IH.
Qed.

Lemma dispatch_cout st n1 n2 n3 n4 address st' :
  dispatch st n1 n2 n3 n4 address = Ok st' ->
  (n1 <> 0x7 -> cout st' = cout st) /\
  (n1 = 0x7 -> exists v, reg st !! Z.to_nat n2 = Some v /\ reg st' = reg st /\
                         cout st' = cout st +:+ pretty v +:+ endl).
Proof.
  intros H.
  destruct (opcode_cases n1) as [->|[->|[->|[->|[->|[->|Hd]]]]]];
    [unfold dispatch in H..|].
  - split; [intros _|discriminate].
    apply bind_Ok in H as (a & _ & H). apply bind_Ok in H as (b & _ & H).
    apply set_reg_keeps in H as [_ ->]. reflexivity.
  - split; [intros _|discriminate]. apply CMP_keeps in H as [_ ->]. reflexivity.
  - split; [intros _|discriminate].
    apply bind_Ok in H as (a & _ & H). apply set_reg_keeps in H as [_ ->]. reflexivity.
  - split; [congruence|intros _].
    apply bind_Ok in H as (a & Ha & H). injection H as <-.
    exists a. split; [exact (get_reg_Ok _ _ _ Ha)|]. split; reflexivity.
  - split; [intros _|discriminate]. apply set_reg_keeps in H as [_ ->]. reflexivity.
  - split; [intros _|discriminate]. apply J_keeps in H as [_ ->]. reflexivity.
  - rewrite (dispatch_default _ _ _ _ _ _ Hd) in H. injection H as <-.
    split; [reflexivity|intros ->; discriminate Hd].
Qed.

Lemma runInstruction_cout st instruction address st' :
  runInstruction st instruction address = Ok st' ->
  (getNibble1 instruction <> 0x7 -> cout st' = cout st) /\
  (getNibble1 instruction = 0x7 ->
   exists v, reg st' !! Z.to_nat (getNibble2 instruction) = Some v /\
             cout st' = cout st +:+ pretty v +:+ endl).
Proof.
  unfold runInstruction, advance_pc. intros H.
  apply bind_Ok in H as (s & Hs & H).
  apply bind_Ok in Hs as (pc & _ & Hs).
  apply set_reg_keeps in Hs as [_ <-].
  apply dispatch_cout in H as [Hne Heq]. split.
  - intros Hop. apply Hne, Hop.
  - intros Hop. destruct (Heq Hop) as (v & Hv & Hreg & Hc).
    exists v. rewrite Hreg. tauto.
Qed.

(** X5: only OUT writes, and nothing is ever taken back.  An
    instruction other than OUT leaves the output as it was; OUT appends
    exactly one line, the decimal value of the register it names
    followed by a newline; and the output after any run of the loop is
    the output before it with something appended. *)
Theorem output_only_grows (st st' : machine) (instruction address : Z)
    (rom : list Z) (fuel : nat) :
  (runInstruction st instruction address = Ok st' ->
   (getNibble1 instruction <> 0x7 -> cout st' = cout st) /\
   (getNibble1 instruction = 0x7 ->
    exists v, reg st' !! Z.to_nat (getNibble2 instruction) = Some v /\
              cout st' = cout st +:+ pretty v +:+ endl)) /\
  (run rom fuel st = Ok st' -> exists s, cout st' = cout st +:+ s).
Proof.
  split; [apply runInstruction_cout|].
  revert st. induction fuel as [|fuel IH]; intros st H; simpl in H.
  - destruct (halt st); [|discriminate]. injection H as <-.
    exists "". symmetry. apply append_empty_r.
  - destruct (halt st).
    { injection H as <-. exists "". symmetry. apply append_empty_r. }
    apply bind_Ok in H as (s1 & Hc & H).
    destruct (IH s1 H) as (s & ->).
    unfold cycle in Hc.
    apply bind_Ok in Hc as (pc & _ & Hc).
    apply bind_Ok in Hc as (i & _ & Hc).
    apply bind_Ok in Hc as (a & _ & Hc).
    apply runInstruction_cout in Hc as [Hne Heq].
    destruct (Z.eq_dec (getNibble1 i) 0x7) as [E|E].
    + destruct (Heq E) as (v & _ & ->).
      exists (pretty v +:+ endl +:+ s). rewrite !append_assoc. reflexivity.
    + rewrite (Hne E). exists s. reflexivity.
Qed.

Lemma output_only_grows_witness :
  let st' := Machine [2; 0; 0; 0; 65535] false zero_RAM (pretty 65535 +:+ endl) in
  exists v, reg st' !! 4%nat = Some v /\ cout st' = "" +:+ pretty v +:+ endl.
Proof.
  generalize zero_RAM. intros ram st'.
  refine (proj2 (proj1 (output_only_grows (Machine [0; 0; 0; 0; 65535] false ram "")
                          st' 0x7400 0 [] 0) _) _); reflexivity.
Defined.

(** ** Data movement *)

(** X6: CPY and LDV.  CPY A B stores in register B the value register
    A holds when the opcode is dispatched (its value before the
    instruction unless A is slot 0) and LDV A stores the literal word
    in register A; neither changes any other register, the halt flag,
    the data store or the output. *)
Theorem CPY_LDV (st : machine) (instruction address pc : Z) :
  wf st ->
  reg st !! 0%nat = Some pc ->
  getNibble2 instruction < NREG ->
  let A := Z.to_nat (getNibble2 instruction) in
  let B := Z.to_nat (getNibble3 instruction) in
  (getNibble1 instruction = 0x6 -> getNibble3 instruction < NREG ->
   exists a st',
     reg (at_dispatch st pc) !! A = Some a /\
     (A <> 0%nat -> reg st !! A = Some a) /\
     runInstruction st instruction address = Ok st' /\
     reg st' !! B = Some a /\
     (forall k, k <> B -> reg st' !! k = reg (at_dispatch st pc) !! k) /\
     halt st' = halt st /\ RAM st' = RAM st /\ cout st' = cout st) /\
  (getNibble1 instruction = 0xA ->
   exists st',
     runInstruction st instruction address = Ok st' /\
     reg st' !! A = Some address /\
     (forall k, k <> A -> reg st' !! k = reg (at_dispatch st pc) !! k) /\
     halt st' = halt st /\ RAM st' = RAM st /\ cout st' = cout st).
Proof.
  intros Hwf Hpc HA A B.
  pose proof (getNibble2_range instruction) as RA.
  pose proof (getNibble3_range instruction) as RB.
  pose proof (wf_at_dispatch st Hwf pc) as Hwf1.
  pose proof (reg_length _ Hwf1) as Hlen.
  rewrite (runInstruction_eq st Hwf instruction address pc Hpc).
  split.
  - intros Hop HB. rewrite Hop. unfold dispatch.
    destruct (reg_lookup _ Hwf1 (getNibble2 instruction)) as (a & Ha & _); [lia|].
    exists a. eexists. split_and!.
    + exact Ha.
    + intros HA0. rewrite <- Ha. symmetry. apply at_dispatch_other, HA0.
    + rewrite (get_reg_Some _ _ a Ha), ret_bind.
      apply set_reg_in; [exact Hwf1|lia].
    + rewrite reg_with_reg. apply list_lookup_insert_eq. unfold NREG in HB. lia.
    + intros k Hk. rewrite reg_with_reg. apply list_lookup_insert_ne.
      fold B. congruence.
    + reflexivity.
    + reflexivity.
    + reflexivity.
  - intros Hop. rewrite Hop. unfold dispatch. eexists. split_and!.
    + apply set_reg_in; [exact Hwf1|lia].
    + rewrite reg_with_reg. apply list_lookup_insert_eq. unfold NREG in HA. lia.
    + intros k Hk. rewrite reg_with_reg. apply list_lookup_insert_ne.
      fold A. congruence.
    + reflexivity.
    + reflexivity.
    + reflexivity.
Qed.

Lemma CPY_LDV_witness :
  exists st', runInstruction (Machine [8; 0; 1; 7; 9] false zero_RAM "") 0x6320 0 = Ok st'
              /\ reg st' !! 2%nat = Some 7.
Proof.
  generalize zero_RAM. intros ram.
  destruct (proj1 (CPY_LDV (Machine [8; 0; 1; 7; 9] false ram "") 0x6320 0 8
                     ltac:(split; [reflexivity|repeat constructor; unfold is_word; lia])
                     ltac:(reflexivity) ltac:(reflexivity))
              ltac:(reflexivity) ltac:(reflexivity))
    as (a & st' & Ha & _ & Hrun & HB & _).
  exists st'. split; [exact Hrun|].
  vm_compute in Ha. injection Ha as <-. exact HB.
Defined.

(** X7: loading the program counter is a jump.  LDV with slot 0 as its
    register has exactly the outcome of J with a mode of 2 or more and
    the same literal, from every state. *)
Theorem LDV_pc_is_jump (st : machine) (ldv j address : Z) :
  getNibble1 ldv = 0xA -> getNibble2 ldv = 0 ->
  getNibble1 j = 0xE -> 2 <= getNibble2 j ->
  runInstruction st ldv address = runInstruction st j address.
Proof.
  intros L1 L2 J1 J2. unfold runInstruction.
  rewrite L1, L2, J1. apply bind_ext. intros s. unfold dispatch, J.
  destruct (Z.eqb_spec (getNibble2 j) 0); [lia|].
  destruct (Z.eqb_spec (getNibble2 j) 1); [lia|]. reflexivity.
Qed.

Lemma LDV_pc_is_jump_witness :
  runInstruction (power_on zero_RAM) 0xA000 0x0006
  = runInstruction (power_on zero_RAM) 0xE200 0x0006.
Proof.
  generalize zero_RAM. intros ram.
  apply LDV_pc_is_jump; [reflexivity|reflexivity|reflexivity|].
  vm_compute. discriminate.
Defined.

(** ** Fields an opcode does not use *)

(** X8: the nibbles and the literal an opcode has no use for are
    ignored.  Two instructions with the same opcode give the same
    outcome from the same state when they agree on field 2 (for the six
    opcodes that have a case), on field 3 (for ADD, CMP, CPY and J), on
    field 4 (for ADD) and on the literal (for LDV and J). *)
Theorem unused_fields_ignored (st : machine) (i i' a a' : Z) :
  getNibble1 i = getNibble1 i' ->
  (implemented (getNibble1 i) = true -> getNibble2 i = getNibble2 i') ->
  (getNibble1 i ∈ [0x0; 0x5; 0x6; 0xE] -> getNibble3 i = getNibble3 i') ->
  (getNibble1 i = 0x0 -> getNibble4 i = getNibble4 i') ->
  (getNibble1 i ∈ [0xA; 0xE] -> a = a') ->
  runInstruction st i a = runInstruction st i' a'.
Proof.
  intros H1 H2 H3 H4 Ha. unfold runInstruction. rewrite <- H1.
  apply bind_ext. intros s.
  destruct (opcode_cases (getNibble1 i)) as [E|[E|[E|[E|[E|[E|Hd]]]]]];
    [rewrite E in *..|].
  - rewrite <- H2, <- H3, <- H4 by (reflexivity || (rewrite !elem_of_cons; auto)).
    reflexivity.
  - rewrite <- H2, <- H3 by (reflexivity || (rewrite !elem_of_cons; auto)).
    reflexivity.
  - rewrite <- H2, <- H3 by (reflexivity || (rewrite !elem_of_cons; auto)).
    reflexivity.
  - rewrite <- H2 by reflexivity. reflexivity.
  - rewrite <- H2, <- Ha by (reflexivity || (rewrite !elem_of_cons; auto)).
    reflexivity.
  - rewrite <- H2, <- H3, <- Ha by (reflexivity || (rewrite !elem_of_cons; auto)).
    reflexivity.
  - rewrite !dispatch_default by exact Hd. reflexivity.
Qed.

Lemma unused_fields_ignored_witness :
  runInstruction (power_on zero_RAM) 0x7400 0x0000
  = runInstruction (power_on zero_RAM) 0x74AB 0x1234.
Proof.
  generalize zero_RAM. intros ram.
  apply unused_fields_ignored.
  - reflexivity.
  - reflexivity.
  - intros H. exfalso. change (getNibble1 0x7400) with 7 in H.
    rewrite !elem_of_cons, elem_of_nil in H. intuition discriminate.
  - discriminate.
  - intros H. exfalso. change (getNibble1 0x7400) with 7 in H.
    rewrite !elem_of_cons, elem_of_nil in H. intuition discriminate.
Defined.

(** X9: ADD is commutative in its operand registers: exchanging
    fields 2 and 3 of an ADD with valid operand selectors gives the
    same outcome. *)
Theorem ADD_commutes (st : machine) (i i' a a' : Z) :
  wf st ->
  getNibble1 i = 0x0 -> getNibble1 i' = 0x0 ->
  getNibble2 i < NREG -> getNibble3 i < NREG ->
  getNibble2 i' = getNibble3 i -> getNibble3 i' = getNibble2 i ->
  getNibble4 i' = getNibble4 i ->
  runInstruction st i a = runInstruction st i' a'.
Proof.
  intros Hwf H1 H1' HA HB E2 E3 E4.
  destruct (pc_exists st Hwf) as (pc & Hpc & _).
  pose proof (wf_at_dispatch st Hwf pc) as Hwf1.
  pose proof (getNibble2_range i) as RA.
  pose proof (getNibble3_range i) as RB.
  rewrite !(runInstruction_eq st Hwf _ _ pc Hpc), H1, H1', E2, E3, E4.
  unfold dispatch.
  destruct (reg_lookup _ Hwf1 (getNibble2 i)) as (x & Hx & _); [lia|].
  destruct (reg_lookup _ Hwf1 (getNibble3 i)) as (y & Hy & _); [lia|].
  rewrite (get_reg_Some _ _ x Hx), (get_reg_Some _ _ y Hy), !ret_bind.
  rewrite (Z.add_comm y x). reflexivity.
Qed.

Lemma ADD_commutes_witness :
  runInstruction (Machine [0; 0; 5; 9; 0] false zero_RAM "") 0x0234 0
  = runInstruction (Machine [0; 0; 5; 9; 0] false zero_RAM "") 0x0324 0.
Proof.
  generalize zero_RAM. intros ram.
  apply ADD_commutes; try reflexivity.
  split; [reflexivity|repeat constructor; unfold is_word; lia].
Defined.

(** ** Compare and branch *)

Lemma testbit_flag_meaning f a b k :
  is_word f -> 0 <= k < 3 ->
  Z.testbit (setbit (cleared f) (compare_bit a b) true) k = flag_meaning k a b.
Proof.
  intros Wf Hk. rewrite (testbit_compare f a b k Wf).
  unfold compare_bit, flag_meaning. rewrite Z.gtb_ltb.
  assert (Hcases : k = 0 \/ k = 1 \/ k = 2) by lia.
  destruct Hcases as [E|[E|E]]; subst k;
    destruct (Z.ltb_spec b a), (Z.eqb_spec a b), (Z.ltb_spec a b);
    try reflexivity; lia.
Qed.

(** X10: CMP followed by J is a conditional branch on the unsigned
    comparison.  After CMP A B on general-purpose registers holding [a]
    and [b], a jump on flag bit 0, 1 or 2 in mode 1 is taken exactly
    when a > b, a = b or a < b respectively, in mode 0 exactly when
    that comparison fails, and in any other mode always; the program
    counter ends at the literal if the jump is taken and four words
    further otherwise, and registers 2 to 4 are unchanged. *)
Theorem compare_and_branch (st : machine) (cmp lit jmp target pc a b : Z) :
  wf st ->
  reg st !! 0%nat = Some pc ->
  getNibble1 cmp = 0x5 ->
  2 <= getNibble2 cmp < NREG ->
  2 <= getNibble3 cmp < NREG ->
  reg st !! Z.to_nat (getNibble2 cmp) = Some a ->
  reg st !! Z.to_nat (getNibble3 cmp) = Some b ->
  getNibble1 jmp = 0xE ->
  getNibble3 jmp < 3 ->
  let mode := getNibble2 jmp in
  let k := getNibble3 jmp in
  let taken := if mode =? 0 then negb (flag_meaning k a b)
               else if mode =? 1 then flag_meaning k a b else true in
  exists st1 st2,
    runInstruction st cmp lit = Ok st1 /\
    runInstruction st1 jmp target = Ok st2 /\
    reg st2 !! 0%nat = Some (if taken then target else wrap16 (pc + 4)) /\
    (forall r : nat, (2 <= r)%nat -> reg st2 !! r = reg st !! r).
Proof.
  intros Hwf Hpc C1 CA CB Ha Hb J1 Jk mode k taken.
  pose proof (getNibble3_range jmp) as Rk. fold k in Rk, Jk.
  unfold NREG in CA, CB.
  destruct (reg_lookup st Hwf 1) as (f & Hf & Wf); [unfold NREG; lia|].
  pose proof (wf_at_dispatch st Hwf pc) as Hwf1.
  assert (Hf1 : reg (at_dispatch st pc) !! 1%nat = Some f)
    by (rewrite at_dispatch_other by lia; exact Hf).
  assert (Hold : forall r : nat, (2 <= r)%nat ->
            reg (at_compare (at_dispatch st pc) f) !! r = reg st !! r).
  { intros r Hr. unfold at_compare. rewrite reg_with_reg.
    rewrite list_lookup_insert_ne by lia. apply at_dispatch_other. lia. }
  set (f' := setbit (cleared f) (compare_bit a b) true).
  set (st1 := with_reg (at_dispatch st pc) (<[1%nat := f']> (reg (at_dispatch st pc)))).
  assert (Hrun1 : runInstruction st cmp lit = Ok st1).
  { rewrite (runInstruction_eq st Hwf _ _ pc Hpc), C1. unfold dispatch.
    rewrite (CMP_eq _ _ _ f Hwf1 Hf1 Wf).
    rewrite (get_reg_Some _ (getNibble2 cmp) a), ret_bind
      by (rewrite Hold by lia; exact Ha).
    rewrite (get_reg_Some _ (getNibble3 cmp) b), ret_bind
      by (rewrite Hold by lia; exact Hb).
    reflexivity. }
  assert (Hwf' : wf st1) by (apply wf_insert; [exact Hwf1|apply setbit_word]).
  assert (Hpc1 : reg st1 !! 0%nat = Some (wrap16 (pc + 2))).
  { unfold st1. rewrite reg_with_reg, list_lookup_insert_ne by lia.
    apply at_dispatch_pc, Hwf. }
  pose proof (wf_at_dispatch st1 Hwf' (wrap16 (pc + 2))) as Hwf2.
  assert (Hf2 : reg (at_dispatch st1 (wrap16 (pc + 2))) !! 1%nat = Some f').
  { rewrite at_dispatch_other by lia. unfold st1. rewrite reg_with_reg.
    apply list_lookup_insert_eq. rewrite (reg_length _ Hwf1). lia. }
  assert (Htaken : jump_taken f' mode k = taken).
  { unfold jump_taken, taken, f'.
    rewrite (testbit_flag_meaning f a b k Wf) by lia. reflexivity. }
  assert (Hpc4 : wrap16 (wrap16 (pc + 2) + 2) = wrap16 (pc + 4)).
  { unfold wrap16. rewrite Zplus_mod_idemp_l. f_equal. lia. }
  assert (Hrest : forall r : nat, (2 <= r)%nat ->
            reg (at_dispatch st1 (wrap16 (pc + 2))) !! r = reg st !! r).
  { intros r Hr. rewrite at_dispatch_other by lia. unfold st1.
    rewrite reg_with_reg, list_lookup_insert_ne by lia.
    apply at_dispatch_other. lia. }
  exists st1. eexists. split; [exact Hrun1|]. split.
  - rewrite (runInstruction_eq st1 Hwf' _ _ _ Hpc1), J1. unfold dispatch.
    rewrite (J_eq _ _ _ _ f' Hwf2 Hf2 (getNibble3_range jmp)).
    fold mode k. rewrite Htaken. reflexivity.
  - destruct taken; split.
    + rewrite reg_with_reg. apply list_lookup_insert_eq.
      rewrite (reg_length _ Hwf2). lia.
    + intros r Hr. rewrite reg_with_reg, list_lookup_insert_ne by lia.
      apply Hrest, Hr.
    + rewrite <- Hpc4. apply at_dispatch_pc, Hwf'.
    + exact Hrest.
Qed.

Lemma compare_and_branch_witness :
  exists st1 st2,
    runInstruction (Machine [14; 0; 1; 1; 2] false zero_RAM "") 0x5430 0 = Ok st1 /\
    runInstruction st1 0xE100 0x0006 = Ok st2 /\
    reg st2 !! 0%nat = Some 6.
Proof.
  generalize zero_RAM. intros ram.
  destruct (compare_and_branch (Machine [14; 0; 1; 1; 2] false ram "")
              0x5430 0 0xE100 0x0006 14 2 1)
    as (st1 & st2 & H1 & H2 & Hpc & _).
  - split; [reflexivity|repeat constructor; unfold is_word; lia].
  - reflexivity.
  - reflexivity.
  - change (getNibble2 0x5430) with 4. unfold NREG. lia.
  - change (getNibble3 0x5430) with 3. unfold NREG. lia.
  - reflexivity.
  - reflexivity.
  - reflexivity.
  - reflexivity.
  - exists st1, st2. split; [exact H1|]. split; [exact H2|exact Hpc].
Defined.

(** ** The program store *)

Lemma ROM_SIZE_nat : Z.of_nat (Z.to_nat ROM_SIZE) = ROM_SIZE.
Proof. apply Z2Nat.id. unfold ROM_SIZE. lia. Qed.

Lemma length_load words : Z.of_nat (length (load words)) = ROM_SIZE.
Proof.
  unfold load, HLT_fill. rewrite length_inserts, length_replicate.
  apply ROM_SIZE_nat.
Qed.

Lemma load_lookup_program words (i : nat) :
  Z.of_nat (length words) <= ROM_SIZE -> (i < length words)%nat ->
  load words !! i = words !! i.
Proof.
  intros Hlen Hi. unfold load, HLT_fill.
  rewrite list_lookup_inserts.
  - f_equal. lia.
  - lia.
  - rewrite length_replicate. pose proof ROM_SIZE_nat. lia.
Qed.

Lemma load_lookup_fill words (i : nat) :
  (length words <= i)%nat -> Z.of_nat i < ROM_SIZE ->
  load words !! i = Some 0xFFFF.
Proof.
  intros Hi Hlt. unfold load, HLT_fill.
  rewrite list_lookup_inserts_ge by lia.
  apply lookup_replicate_2. pose proof ROM_SIZE_nat. lia.
Qed.

Lemma load_lookup_none words (i : nat) :
  ROM_SIZE <= Z.of_nat i -> load words !! i = None.
Proof.
  intros Hi. apply lookup_ge_None_2.
  pose proof (length_load words). lia.
Qed.

(** X11: layout of the program store after loading.  The store always
    has 0xFFFF = 65535 words; a program that fits is found word for
    word from address 0; every address after it, up to 65534, holds the
    word 0xFFFF, whose opcode nibble 0xF halts; and address 65535,
    though a 16-bit value, is not an index of the store. *)
Theorem load_layout (words : list Z) (i : nat) :
  Z.of_nat (length words) <= ROM_SIZE ->
  Z.of_nat (length (load words)) = 65535 /\
  ((i < length words)%nat -> load words !! i = words !! i) /\
  ((length words <= i)%nat -> Z.of_nat i < 65535 ->
   load words !! i = Some 0xFFFF) /\
  implemented (getNibble1 0xFFFF) = false /\
  load words !! Z.to_nat 65535 = None.
Proof.
  intros Hlen. split_and!.
  - apply length_load.
  - apply load_lookup_program, Hlen.
  - apply load_lookup_fill.
  - reflexivity.
  - apply load_lookup_none. rewrite Z2Nat.id by lia. unfold ROM_SIZE. lia.
Qed.

Lemma load_layout_witness :
  load fibonacci_code !! 16%nat = fibonacci_code !! 16%nat /\
  load fibonacci_code !! 18%nat = Some 0xFFFF.
Proof.
  assert (Hlen : Z.of_nat (length fibonacci_code) <= ROM_SIZE)
    by (unfold ROM_SIZE; simpl; lia).
  split.
  - apply (proj1 (proj2 (load_layout fibonacci_code 16 Hlen))). simpl. lia.
  - apply (proj1 (proj2 (proj2 (load_layout fibonacci_code 18 Hlen)))); simpl; lia.
Defined.

(** ** Fetching *)

Lemma read_ROM_in rom i v :
  rom !! Z.to_nat i = Some v -> read_ROM rom i = Ok v.
Proof. unfold read_ROM. intros ->. reflexivity. Qed.

Lemma read_ROM_out rom i :
  0 <= i -> Z.of_nat (length rom) <= i -> read_ROM rom i = UB (ROM_out_of_range i).
Proof.
  intros H0 Hi. unfold read_ROM.
  rewrite lookup_ge_None_2 by lia. reflexivity.
Qed.

Lemma rom_lookup_in (rom : list Z) i :
  0 <= i < Z.of_nat (length rom) -> exists v, rom !! Z.to_nat i = Some v.
Proof.
  intros Hi. destruct (lookup_lt_is_Some_2 rom (Z.to_nat i)) as [v Hv]; [lia|].
  exists v. exact Hv.
Qed.

(** X12: which fetches stay inside the program store.  With the
    program counter at [pc], a cycle over a store of 65535 words reads
    the words at [pc] and [pc + 1] and executes them when [pc] is at
    most 65533; at 65534 and 65535, both of them values a 16-bit
    program counter can hold, it reads index 65535, past the end of the
    store. *)
Theorem fetch_bounds (rom : list Z) (st : machine) (pc : Z) :
  Z.of_nat (length rom) = ROM_SIZE ->
  reg st !! 0%nat = Some pc ->
  0 <= pc ->
  (pc <= 65533 ->
   exists i a, rom !! Z.to_nat pc = Some i /\ rom !! Z.to_nat (pc + 1) = Some a /\
               cycle rom st = runInstruction st i a) /\
  (65534 <= pc <= 65535 -> cycle rom st = UB (ROM_out_of_range 65535)).
Proof.
  intros Hlen Hpc H0. unfold ROM_SIZE in Hlen. unfold cycle.
  rewrite (get_reg_Some st 0 pc Hpc), ret_bind. split.
  - intros Hle.
    destruct (rom_lookup_in rom pc) as [i Hi]; [lia|].
    destruct (rom_lookup_in rom (pc + 1)) as [a Ha]; [lia|].
    exists i, a. split; [exact Hi|]. split; [exact Ha|].
    rewrite (read_ROM_in _ _ _ Hi), ret_bind, (read_ROM_in _ _ _ Ha), ret_bind.
    reflexivity.
  - intros [Hlo Hhi].
    assert (pc = 65534 \/ pc = 65535) as [-> | ->] by lia.
    + destruct (rom_lookup_in rom 65534) as [i Hi]; [lia|].
      rewrite (read_ROM_in _ _ _ Hi), ret_bind.
      change (65534 + 1) with 65535.
      rewrite (read_ROM_out rom 65535) by lia. reflexivity.
    + rewrite (read_ROM_out rom 65535) by lia. reflexivity.
Qed.

Lemma fetch_bounds_witness :
  cycle (load fibonacci_code) (Machine [65534; 0; 0; 0; 0] false zero_RAM "")
  = UB (ROM_out_of_range 65535).
Proof.
  generalize zero_RAM. intros ram.
  refine (proj2 (fetch_bounds (load fibonacci_code)
                   (Machine [65534; 0; 0; 0; 0] false ram "") 65534
                   (length_load _) _ _) _).
  - reflexivity.
  - lia.
  - lia.
Defined.

(** X13: a stray jump halts.  When the program counter points at or
    after the end of the loaded program (and at most at 65533), the
    next cycle fetches the fill word and halts the machine, changing
    nothing but the halt flag and the program counter's increment. *)
Theorem unloaded_address_halts (words : list Z) (st : machine) (pc : Z) :
  wf st ->
  reg st !! 0%nat = Some pc ->
  Z.of_nat (length words) <= pc ->
  pc <= 65533 ->
  cycle (load words) st = Ok (with_halt (at_dispatch st pc) true).
Proof.
  intros Hwf Hpc Hlo Hhi. unfold cycle.
  rewrite (get_reg_Some st 0 pc Hpc), ret_bind.
  rewrite (read_ROM_in _ pc 0xFFFF), ret_bind
    by (apply load_lookup_fill; [lia|unfold ROM_SIZE; lia]).
  rewrite (read_ROM_in _ (pc + 1) 0xFFFF), ret_bind
    by (apply load_lookup_fill; [lia|unfold ROM_SIZE; lia]).
  apply default_halts; [exact Hwf|exact Hpc|reflexivity].
Qed.

Lemma unloaded_address_halts_witness :
  cycle (load fibonacci_code) (Machine [0x4000; 4; 1; 2; 3] false zero_RAM "")
  = Ok (Machine [0x4002; 4; 1; 2; 3] true zero_RAM "").
Proof.
  generalize zero_RAM. intros ram.
  refine (unloaded_address_halts fibonacci_code
            (Machine [0x4000; 4; 1; 2; 3] false ram "") 0x4000 _ _ _ _).
  - split; [reflexivity|repeat constructor; unfold is_word; lia].
  - reflexivity.
  - simpl. lia.
  - lia.
Defined.

(** ** The run loop and its cycles *)

Lemma cycles_S rom n st : cycles rom (S n) st = cycle rom st ≫= cycles rom n.
Proof. reflexivity. Qed.

Lemma run_Ok_halted rom fuel st st' : run rom fuel st = Ok st' -> halt st' = true.
Proof.
  revert st. induction fuel as [|fuel IH]; intros st H; simpl in H.
  - destruct (halt st) eqn:E; [injection H as <-; exact E|discriminate].
  - destruct (halt st) eqn:E; [injection H as <-; exact E|].
    apply bind_Ok in H as (s & _ & H). exact (IH s H).
Qed.

(** X14: the run loop stops at the first halted state.  The loop
    returns [st'] within [fuel] turns exactly when, for some [n] of at
    most [fuel], [n] cycles from the start lead to [st'], [st'] is
    halted, and no state after fewer cycles is. *)
Theorem run_stops_at_first_halt (rom : list Z) (fuel : nat) (st st' : machine) :
  run rom fuel st = Ok st' <->
  exists n, (n <= fuel)%nat /\ cycles rom n st = Ok st' /\ halt st' = true /\
            forall m s, (m < n)%nat -> cycles rom m st = Ok s -> halt s = false.
Proof.
  split.
  - revert st. induction fuel as [|fuel IH]; intros st H; simpl in H.
    + destruct (halt st) eqn:E; [|discriminate]. injection H as <-.
      exists 0%nat. split_and!; [lia|reflexivity|exact E|intros; lia].
    + destruct (halt st) eqn:E.
      { injection H as <-.
        exists 0%nat. split_and!; [lia|reflexivity|exact E|intros; lia]. }
      apply bind_Ok in H as (s1 & Hc & H).
      destruct (IH s1 H) as (n & Hn & Hcy & Hh & Hfirst).
      exists (S n). split_and!.
      * lia.
      * rewrite cycles_S, Hc. exact Hcy.
      * exact Hh.
      * intros m s Hm Hs. destruct m as [|m].
        { injection Hs as <-. exact E. }
        rewrite cycles_S, Hc in Hs. apply (Hfirst m s); [lia|exact Hs].
  - intros (n & Hn & Hcy & Hh & Hfirst).
    apply (run_mono rom n); [|discriminate|exact Hn].
    clear Hn fuel. revert st Hcy Hfirst.
    induction n as [|n IH]; intros st Hcy Hfirst.
    + injection Hcy as <-. apply run_halted, Hh.
    + assert (E : halt st = false) by (apply (Hfirst 0%nat st); [lia|reflexivity]).
      rewrite run_step by exact E. rewrite cycles_S in Hcy.
      destruct (cycle rom st) as [s1| |] eqn:Hc; try discriminate.
      rewrite ret_bind in *. apply IH; [exact Hcy|].
      intros m s Hm Hs. apply (Hfirst (S m) s); [lia|].
      rewrite cycles_S, Hc. exact Hs.
Qed.

Lemma run_stops_at_first_halt_witness :
  exists n, (n <= 5)%nat /\
    cycles (load [0xA205; 0x0007; 0xF000]) n (power_on zero_RAM)
    = Ok (Machine [4; 0; 7; 0; 0] true zero_RAM "").
Proof.
  generalize zero_RAM. intros ram.
  destruct (proj1 (run_stops_at_first_halt (load [0xA205; 0x0007; 0xF000]) 5
                     (power_on ram) (Machine [4; 0; 7; 0; 0] true ram ""))
              ltac:(vm_compute; reflexivity))
    as (n & Hn & Hc & _).
  exists n. split; [exact Hn|exact Hc].
Defined.

(** A run can be resumed.  Running for [n + m] turns is running
    for [n] turns and, if that ran out of fuel, going on for [m] turns
    from the state reached after [n] cycles; a run that ended, in a
    halted state or in an access out of bounds, is not changed by more
    fuel. *)
Lemma run_resume (rom : list Z) (n m : nat) (st : machine) :
  run rom (n + m) st =
  match run rom n st with
  | OutOfFuel => cycles rom n st ≫= run rom m
  | r => r
  end.
Proof.
  revert st. induction n as [|n IH]; intros st.
  - simpl. destruct (halt st) eqn:E; [|reflexivity].
    apply run_halted, E.
  - simpl. destruct (halt st); [reflexivity|].
    destruct (cycle rom st) as [s| |]; simpl; [apply IH|reflexivity..].
Qed.

(** ** Programs without jumps *)

Lemma wf_power_on ram : wf (power_on ram).
Proof.
  unfold wf, power_on. change (Z.to_nat NREG) with 5%nat. simpl.
  split; [reflexivity|repeat constructor; unfold is_word; lia].
Qed.

Lemma load_words words :
  Z.of_nat (length words) <= ROM_SIZE ->
  Forall is_word words -> Forall is_word (load words).
Proof.
  intros Hlen Hall. rewrite Forall_lookup in *. intros j x Hx.
  assert (Hj : Z.of_nat j < ROM_SIZE).
  { apply lookup_lt_Some in Hx. pose proof (length_load words). lia. }
  destruct (decide (j < length words)%nat) as [Hlt|Hge].
  - rewrite load_lookup_program in Hx by assumption. eauto.
  - rewrite load_lookup_fill in Hx by (lia || assumption).
    injection Hx as <-. unfold is_word. lia.
Qed.

Lemma cycle_fill words st pc :
  wf st -> reg st !! 0%nat = Some pc ->
  Z.of_nat (length words) <= pc -> pc <= 65533 ->
  cycle (load words) st = Ok (with_halt (at_dispatch st pc) true).
Proof.
  intros Hwf Hpc Hlo Hhi. unfold cycle.
  rewrite (get_reg_Some st 0 pc Hpc), ret_bind.
  rewrite (read_ROM_in _ pc 0xFFFF), ret_bind
    by (apply load_lookup_fill; [lia|unfold ROM_SIZE; lia]).
  rewrite (read_ROM_in _ (pc + 1) 0xFFFF), ret_bind
    by (apply load_lookup_fill; [lia|unfold ROM_SIZE; lia]).
  apply default_halts; [exact Hwf|exact Hpc|reflexivity].
Qed.

(** One cycle of a program without jumps, inside the program: the
    instruction executes and the program counter moves on by 2. *)
Lemma straight_line_cycle words st (k : nat) :
  Forall is_word words -> straight_line words ->
  Z.of_nat (length words) <= 65532 ->
  wf st -> reg st !! 0%nat = Some (2 * Z.of_nat k) ->
  (2 * k < length words)%nat ->
  exists st', cycle (load words) st = Ok st' /\ wf st' /\
              reg st' !! 0%nat = Some (2 * Z.of_nat (S k)).
Proof.
  intros Hall Hsl Hlen Hwf Hpc Hk.
  assert (HlenR : Z.of_nat (length words) <= ROM_SIZE) by (unfold ROM_SIZE; lia).
  destruct (lookup_lt_is_Some_2 words (2 * k)%nat Hk) as [i Hi].
  destruct (Hsl k i Hi) as (HnoJ & Hdst & Hops).
  assert (Hri : load words !! Z.to_nat (2 * Z.of_nat k) = Some i).
  { replace (Z.to_nat (2 * Z.of_nat k)) with (2 * k)%nat by lia.
    rewrite load_lookup_program by assumption. exact Hi. }
  destruct (rom_lookup_in (load words) (2 * Z.of_nat k + 1)) as [a Ha].
  { rewrite length_load. unfold ROM_SIZE. lia. }
  assert (Wa : is_word a).
  { pose proof (load_words words HlenR Hall) as Hw.
    rewrite Forall_lookup in Hw. eauto. }
  unfold cycle.
  rewrite (get_reg_Some st 0 _ Hpc), ret_bind.
  rewrite (read_ROM_in _ _ _ Hri), ret_bind, (read_ROM_in _ _ _ Ha), ret_bind.
  destruct (reg_lookup st Hwf 1) as (f & Hf & Wf); [unfold NREG; lia|].
  pose proof (wf_at_dispatch st Hwf (2 * Z.of_nat k)) as Hwf1.
  assert (Hf1 : reg (at_dispatch st (2 * Z.of_nat k)) !! 1%nat = Some f)
    by (rewrite at_dispatch_other by lia; exact Hf).
  destruct (dispatch_selectors _ i a f Hwf1 Hf1 Wf) as [[_ [st' Hst']]|(r & Hin & Hge & _)].
  - assert (Hrun : runInstruction st i a = Ok st')
      by (rewrite (runInstruction_eq st Hwf _ _ _ Hpc); exact Hst').
    exists st'. split; [exact Hrun|].
    split; [exact (runInstruction_wf _ _ _ _ Hwf Wa Hrun)|].
    destruct (runInstruction_frame st i a _ st' 0 Hwf Hpc Hrun)
      as [H|[[H _]|[[_ H]|H]]]; [|contradiction|discriminate|contradiction].
    rewrite H, (at_dispatch_pc st _ Hwf). f_equal.
    rewrite wrap16_id by (unfold is_word; lia). lia.
  - rewrite Forall_forall in Hops. specialize (Hops r Hin). lia.
Qed.

Lemma straight_line_run words (d k : nat) st :
  Forall is_word words -> straight_line words ->
  Z.of_nat (length words) <= 65532 ->
  wf st -> reg st !! 0%nat = Some (2 * Z.of_nat k) ->
  (length words <= 2 * (k + d))%nat ->
  (2 * k <= length words + 1)%nat ->
  exists st', run (load words) (S d) st = Ok st' /\ wf st'.
Proof.
  intros Hall Hsl Hlen. revert k st.
  induction d as [|d IH]; intros k st Hwf Hpc Hd Hk.
  - destruct (halt st) eqn:E.
    { exists st. split; [apply run_halted, E|exact Hwf]. }
    rewrite run_step by exact E.
    rewrite (cycle_fill words st _ Hwf Hpc) by lia. rewrite ret_bind.
    eexists. split; [apply run_halted; reflexivity|].
    apply (wf_at_dispatch st Hwf).
  - destruct (halt st) eqn:E.
    { exists st. split; [apply run_halted, E|exact Hwf]. }
    rewrite run_step by exact E.
    destruct (decide (2 * k < length words)%nat) as [Hin|Hout].
    + destruct (straight_line_cycle words st k Hall Hsl Hlen Hwf Hpc Hin)
        as (s & Hc & Hwfs & Hpcs).
      rewrite Hc, ret_bind. apply (IH (S k) s Hwfs Hpcs); lia.
    + rewrite (cycle_fill words st _ Hwf Hpc) by lia. rewrite ret_bind.
      eexists. split; [apply run_halted; reflexivity|].
      apply (wf_at_dispatch st Hwf).
Qed.

(** X15: a program without jumps always halts.  If the loaded program
    consists of 16-bit words, fits in 65532 words, has no J, no
    instruction with slot 0 as destination and no register selector of
    5 or more, then from power-on the run loop ends in a halted state,
    without any access out of bounds, after at most one cycle per
    instruction of the program and one more for the fill word behind
    it. *)
Theorem straight_line_halts (words ram : list Z) :
  Forall is_word words ->
  straight_line words ->
  Z.of_nat (length words) <= 65532 ->
  exists n st',
    (2 * n <= length words + 3)%nat /\
    run (load words) n (power_on ram) = Ok st' /\
    halt st' = true /\ wf st'.
Proof.
  intros Hall Hsl Hlen.
  assert (Hd : exists d, (length words <= 2 * d <= length words + 1)%nat).
  { destruct (Nat.Even_or_Odd (length words)) as [[c Hc]|[c Hc]].
    - exists c. lia.
    - exists (S c). lia. }
  destruct Hd as (d & Hd1 & Hd2).
  destruct (straight_line_run words d 0 (power_on ram) Hall Hsl Hlen
              (wf_power_on ram) eq_refl) as (st' & Hrun & Hwf'); [lia|lia|].
  exists (S d), st'. split; [lia|]. split; [exact Hrun|].
  split; [exact (run_Ok_halted _ _ _ _ Hrun)|exact Hwf'].
Qed.

Lemma straight_line_halts_witness :
  exists n st', (2 * n <= 4 + 3)%nat /\
    run (load [0xA241; 0x0041; 0x7200; 0x0000]) n (power_on zero_RAM) = Ok st' /\
    halt st' = true.
Proof.
  generalize zero_RAM. intros ram.
  destruct (straight_line_halts [0xA241; 0x0041; 0x7200; 0x0000] ram)
    as (n & st' & Hn & Hrun & Hh & _).
  - repeat constructor; unfold is_word; lia.
  - intros k i Hi.
    destruct k as [|[|k]]; simpl in Hi.
    + injection Hi as <-.
      split; [discriminate|]. split; [discriminate|].
      change (register_operands 0xA241) with [2].
      repeat constructor.
    + injection Hi as <-.
      split; [discriminate|]. split; [discriminate|].
      change (register_operands 0x7200) with [2].
      repeat constructor.
    + replace (k + S (S (k + 0)))%nat with (S (S (k + k)))%nat in Hi by lia.
      discriminate Hi.
  - simpl. lia.
  - exists n, st'. split; [exact Hn|]. split; [exact Hrun|exact Hh].
Defined.
